(** * jpype/_jproxy.py: the dynamic-proxy bridge

    A shallow embedding of [src/jpype/_jproxy.py] and the properties its
    specification states about it.  Python values are an inductive type,
    exceptions are a sum, the dictionaries the code builds are [gmap]s, the
    mutable type objects live in a store that is threaded through the
    stateful functions. *)

From stdpp Require Import base numbers strings list gmap fin_maps.

Set Warnings "-register-all".
Local Open Scope string_scope.
Local Open Scope list_scope.
Local Open Scope Z_scope.

(** ** Exceptions *)

(** The exceptions the module raises, with their message.  [JavaError] is
    whatever [_jpype.JClass(name)] raises for a name it cannot resolve. *)
Inductive exn : Type :=
| TypeError (msg : string)
| NotImplementedError (msg : string)
| AttributeError (msg : string)
| KeyError (key : string)
| JavaError (msg : string).

Inductive result (A : Type) : Type :=
| Ok (a : A)
| Raise (e : exn).
Arguments Ok {A} a.
Arguments Raise {A} e.

Definition rbind {A B} (r : result A) (k : A → result B) : result B :=
  match r with
  | Ok a => k a
  | Raise e => Raise e
  end.

Global Instance exn_eq_dec : EqDecision exn.
Proof. solve_decision. Defined.

(** ** The foreign runtime's reflection data *)

(** [java.lang.reflect.Method]: what [getName()] and [getModifiers()] return. *)
Record Method : Type := {
  getName : string;
  getModifiers : Z
}.

(** A wrapped Java class, an instance of [_jpype.JClass].  [cls___name__] is
    the Python [__name__] of the wrapper, [class_getName] and
    [class_getMethods] are [class_.getName()] and [class_.getMethods()],
    [is_JInterface] is [issubclass(cls, _jpype.JInterface)], and
    [has___iter__] is [hasattr(cls, '__iter__')], which holds of the
    wrappers of [java.lang.Iterable] and of the classes under it. *)
Record JClass : Type := {
  cls___name__ : string;
  class_getName : string;
  class_getMethods : list Method;
  is_JInterface : bool;
  has___iter__ : bool
}.

Global Instance Method_eq_dec : EqDecision Method.
Proof. solve_decision. Defined.

Global Instance JClass_eq_dec : EqDecision JClass.
Proof. solve_decision. Defined.

(** ** Python values *)

(** The type of a proxy instance: the native base [_jpype._JProxy], the
    legacy class [JProxy], or a type made by [type(...)], known by its index
    in the type store and its [__name__]. *)
Inductive tyref : Type :=
| Ty_JProxyBase
| Ty_JProxy
| Ty_dyn (t : nat) (name : string).

Global Instance tyref_eq_dec : EqDecision tyref.
Proof. solve_decision. Defined.

(** The values the module handles.  [PList] and [PTuple] stand for the
    non-string iterables (a list is unhashable, a tuple is hashable when its
    items are); [PFunction] is a function object with its [__joverride__]
    attribute when it has one; [PObject] is any other host object, known by
    its type's name and its identity; [PDict] is a dictionary with string
    keys (its pairs in insertion order); [PFromDict] is an instance of
    [_JFromDict] with its [dict] attribute;
    [PProxy] is an instance of [_jpype._JProxy] with the three arguments its
    allocator received. *)
Inductive pyobj : Type :=
| PNone
| PBool (b : bool)
| PStr (s : string)
| PList (items : list pyobj)
| PTuple (items : list pyobj)
| PJClass (c : JClass)
| PFunction (name : string) (joverride : option pyobj)
| PObject (tyname : string) (id : nat)
| PDict (d : list (string * pyobj))
| PFromDict (dict : pyobj)
| PProxy (tp : tyref) (target : pyobj) (interfaces : list JClass) (convert : bool).

(** Equality of values is decidable. *)
Definition pyobj_eq_dec : ∀ a b : pyobj, {a = b} + {a ≠ b}.
Proof.
  fix IH 1.
  assert (Hl : ∀ l1 l2 : list pyobj, {l1 = l2} + {l1 ≠ l2}).
  { intros l1 l2. apply List.list_eq_dec. apply IH. }
  assert (Ho : ∀ o1 o2 : option pyobj, {o1 = o2} + {o1 ≠ o2}).
  { intros [x|] [y|]; try (right; congruence); [|left; reflexivity].
    destruct (IH x y); [left|right]; congruence. }
  assert (Hd : ∀ d1 d2 : list (string * pyobj), {d1 = d2} + {d1 ≠ d2}).
  { intros d1 d2. apply List.list_eq_dec. intros [k1 v1] [k2 v2].
    destruct (String.string_dec k1 k2); [|right; congruence].
    destruct (IH v1 v2); [left|right]; congruence. }
  intros a b. destruct a, b; try (right; discriminate).
  - left; reflexivity.
  - destruct (bool_eq_dec b b0); [left|right]; congruence.
  - destruct (String.string_dec s s0); [left|right]; congruence.
  - destruct (Hl items items0); [left|right]; congruence.
  - destruct (Hl items items0); [left|right]; congruence.
  - destruct (JClass_eq_dec c c0); [left|right]; congruence.
  - destruct (String.string_dec name name0); [|right; congruence].
    destruct (Ho joverride joverride0); [left|right]; congruence.
  - destruct (String.string_dec tyname tyname0); [|right; congruence].
    destruct (Nat.eq_dec id id0); [left|right]; congruence.
  - destruct (Hd d d0); [left|right]; congruence.
  - destruct (IH a b); [left|right]; congruence.
  - destruct (tyref_eq_dec tp tp0); [|right; congruence].
    destruct (IH a b); [|right; congruence].
    destruct (list_eq_dec interfaces interfaces0); [|right; congruence].
    destruct (bool_eq_dec convert convert0); [left|right]; congruence.
Defined.

Global Instance pyobj_eq_decision : EqDecision pyobj := pyobj_eq_dec.

(** [result] is the error monad the pure functions run in. *)
Global Instance result_ret : MRet result := λ A a, Ok a.
Global Instance result_bind : MBind result := λ A B k r, rbind r k.
Global Instance result_fmap : FMap result := λ A B f r, rbind r (λ a, Ok (f a)).

(** [type(v).__name__]. *)
Definition type_name (v : pyobj) : string :=
  match v with
  | PNone => "NoneType"
  | PBool _ => "bool"
  | PStr _ => "str"
  | PList _ => "list"
  | PTuple _ => "tuple"
  | PJClass _ => "JClass"
  | PFunction _ _ => "function"
  | PObject tyname _ => tyname
  | PDict _ => "dict"
  | PFromDict _ => "_JFromDict"
  | PProxy Ty_JProxyBase _ _ _ => "_JProxy"
  | PProxy Ty_JProxy _ _ _ => "JProxy"
  | PProxy (Ty_dyn _ name) _ _ _ => name
  end.

(** [isinstance(v, str)], and whether the type of [v] is [_jpype._JProxy]
    or one of its subtypes. *)
Definition is_str (v : pyobj) : bool :=
  match v with PStr _ => true | _ => false end.

Definition is_JProxy (v : pyobj) : bool :=
  match v with PProxy _ _ _ _ => true | _ => false end.

(** [bool(v)]. *)
Definition truthy (v : pyobj) : bool :=
  match v with
  | PNone => false
  | PBool b => b
  | PStr s => negb (String.eqb s "")
  | PList l | PTuple l => negb (Nat.eqb (length l) 0)
  | PDict d => negb (Nat.eqb (length d) 0)
  | _ => true
  end.

(** First binding of a key in an insertion-ordered dictionary. *)
Fixpoint dict_get (d : list (string * pyobj)) (k : string) : option pyobj :=
  match d with
  | [] => None
  | (k', v) :: d' => if String.eqb k' k then Some v else dict_get d' k
  end.

(** [d[name]] for a string [name]: a dictionary raises [KeyError] on an
    absent key; the other values do not take a string subscript. *)
Definition getitem (d : pyobj) (name : string) : result pyobj :=
  match d with
  | PDict pairs =>
      match dict_get pairs name with
      | Some v => Ok v
      | None => Raise (KeyError name)
      end
  | PStr _ =>
      Raise (TypeError "string indices must be integers, not 'str'")
  | PList _ | PTuple _ =>
      Raise (TypeError
        (type_name d +:+ " indices must be integers or slices, not str"))
  | _ =>
      Raise (TypeError ("'" +:+ type_name d +:+ "' object is not subscriptable"))
  end.

(** ** The dictionary adapter *)

(** [_JFromDict(dict)]. *)
Definition _JFromDict (dict : pyobj) : pyobj := PFromDict dict.

(** [_JFromDict.__getattribute__(self, name)], which every attribute lookup
    on an instance goes through.  For a [self] that is not an instance, the
    first step [object.__getattribute__(self, 'dict')] finds no attribute. *)
Definition _JFromDict___getattribute__ (self : pyobj) (name : string)
    : result pyobj :=
  match self with
  | PFromDict dict =>
      match getitem dict name with
      | Ok v => Ok v
      | Raise (KeyError _) => Raise (AttributeError "attribute not found")
      | Raise e => Raise e
      end
  | _ =>
      Raise (AttributeError
        ("'" +:+ type_name self +:+ "' object has no attribute 'dict'"))
  end.

(** [object.__getattribute__(v, "__joverride__")]: the attribute a
    decorated function carries; every other value lacks it. *)
Definition getattribute_joverride (v : pyobj) : result pyobj :=
  match v with
  | PFunction _ (Some attr) => Ok attr
  | _ => Raise (AttributeError
           ("'" +:+ type_name v +:+ "' object has no attribute '__joverride__'"))
  end.

(** ** Override validation *)

(** [for method in interface.class_.getMethods(): ...] of
    [_checkInterfaceOverrides], for one interface. *)
Fixpoint check_methods {V} (interface : JClass) (methods : list Method)
    (overrides : gmap string V) : result unit :=
  match methods with
  | [] => Ok tt
  | method :: rest =>
      if Z.land (getModifiers method) 1024 =? 0 then
        check_methods interface rest overrides
      else
        match overrides !! getName method with
        | Some _ => check_methods interface rest overrides
        | None =>
            Raise (NotImplementedError
              ("Interface '" +:+ class_getName interface +:+
               "' requires method '" +:+ getName method +:+
               "' to be implemented."))
        end
  end.

Fixpoint _checkInterfaceOverrides {V} (interfaces : list JClass)
    (overrides : gmap string V) : result unit :=
  match interfaces with
  | [] => Ok tt
  | interface :: rest =>
      _ ← check_methods interface (class_getMethods interface) overrides;
      _checkInterfaceOverrides rest overrides
  end.

(** ** Host classes *)

(** The class a proxy is made from: its [__name__], its own [__dict__], the
    [__dict__] of each of its base classes (the inherited members), and its
    initializer, of which the model keeps the exception it raises, if any. *)
Record hostclass : Type := {
  cls_name : string;
  cls_dict : gmap string pyobj;
  cls_bases : list (gmap string pyobj);
  cls_init : pyobj → list pyobj → list (string * pyobj) → option exn
}.

(** One turn of the loop of [_classOverrides]. *)
Definition classOverrides_step (k : string) (v : pyobj)
    (acc : result (gmap string (pyobj * pyobj)))
    : result (gmap string (pyobj * pyobj)) :=
  overrides ← acc;
  match getattribute_joverride v with
  | Ok attr => Ok (<[k := (v, attr)]> overrides)
  | Raise (AttributeError _) => Ok overrides
  | Raise e => Raise e
  end.

Definition _classOverrides (cls : hostclass)
    : result (gmap string (pyobj * pyobj)) :=
  map_fold classOverrides_step (Ok ∅) (cls_dict cls).

(** ** Python sets *)

(** [hash(v)] succeeds: lists are unhashable, a tuple hashes its items. *)
Fixpoint hashable (v : pyobj) : bool :=
  match v with
  | PList _ | PDict _ => false
  | PTuple items => forallb hashable items
  | _ => true
  end.

(** The type [hash(v)] complains about when it fails: the type of [v], or
    for a tuple the type that its first unhashable item is refused for. *)
Fixpoint unhashable_name (v : pyobj) : string :=
  match v with
  | PTuple items =>
      (fix first (l : list pyobj) : string :=
         match l with
         | [] => "tuple"
         | x :: l' => if hashable x then first l' else unhashable_name x
         end) items
  | _ => type_name v
  end.

(** A set holds distinct values; the list keeps them in insertion order.
    [s.add(x)] raises on an unhashable [x]. *)
Definition set_add (x : pyobj) (s : list pyobj) : result (list pyobj) :=
  if hashable x then
    Ok (if decide (x ∈ s) then s else s ++ [x])
  else Raise (TypeError ("unhashable type: '" +:+ unhashable_name x +:+ "'")).

(** The order in which a set is iterated is not the insertion order and is
    left open: any rearrangement of the elements. *)
Class SetOrder : Type := {
  set_iter : list pyobj → list pyobj;
  set_iter_perm : ∀ s, set_iter s ≡ₚ s
}.

(** The insertion order is one such order. *)
Definition insertion_order : SetOrder :=
  {| set_iter := λ s, s; set_iter_perm := λ s, reflexivity s |}.

(** ** Interface resolution *)

(** [hasattr(v, '__iter__')], which turns an [AttributeError] into [False].
    Strings, lists, tuples and dictionaries are iterable; a [_JFromDict]
    answers every attribute lookup from its dictionary; a wrapped Java class
    has the attribute when its instances are iterable, though the class
    object itself cannot be iterated; the other values are taken to have no
    [__iter__]. *)
Definition has_iter (v : pyobj) : result bool :=
  match v with
  | PStr _ | PList _ | PTuple _ | PDict _ => Ok true
  | PJClass c => Ok (has___iter__ c)
  | PFromDict _ =>
      match _JFromDict___getattribute__ v "__iter__" with
      | Ok _ => Ok true
      | Raise (AttributeError _) => Ok false
      | Raise e => Raise e
      end
  | _ => Ok false
  end.

(** The items [list.extend(v)] appends. *)
Definition iter_items (v : pyobj) : result (list pyobj) :=
  match v with
  | PList items | PTuple items => Ok items
  | PStr s => Ok ((λ a, PStr (String a EmptyString)) <$> String.list_ascii_of_string s)
  | PDict d => Ok ((λ kv, PStr kv.1) <$> d)
  | _ => Raise (TypeError ("'" +:+ type_name v +:+ "' object is not iterable"))
  end.

(** The first loop of [_convertInterfaces]: flatten the list. *)
Fixpoint flatten (intf : list pyobj) (intflist : list pyobj)
    : result (list pyobj) :=
  match intf with
  | [] => Ok intflist
  | item :: rest =>
      if is_str item then flatten rest (intflist ++ [item])
      else
        iterable ← has_iter item;
        if negb iterable then flatten rest (intflist ++ [item])
        else
          items ← iter_items item;
          flatten rest (intflist ++ items)
  end.

(** The third loop of [_convertInterfaces]: check that all are interfaces. *)
Fixpoint check_interfaces (actualIntf : list pyobj) : result (list JClass) :=
  match actualIntf with
  | [] => Ok []
  | cls :: rest =>
      match cls with
      | PJClass c =>
          if is_JInterface c then
            cs ← check_interfaces rest; Ok (c :: cs)
          else
            Raise (TypeError
              ("'" +:+ cls___name__ c +:+ "' is not a Java interface"))
      | _ =>
          Raise (TypeError
            ("'" +:+ type_name cls +:+ "' is not a Java interface"))
      end
  end.

Section resolution.
(** [_jpype.JClass(name)]: the foreign runtime's class lookup. *)
Variable JClass_lookup : string → result JClass.
Context {order : SetOrder}.

(** The second loop of [_convertInterfaces]: look up the classes given as
    a string and collect the set. *)
Fixpoint lookup_classes (intflist : list pyobj) (actualIntf : list pyobj)
    : result (list pyobj) :=
  match intflist with
  | [] => Ok actualIntf
  | item :: rest =>
      x ← match item with
          | PStr name => PJClass <$> JClass_lookup name
          | _ => Ok item
          end;
      actualIntf' ← set_add x actualIntf;
      lookup_classes rest actualIntf'
  end.

Definition _convertInterfaces (intf : list pyobj) : result (list JClass) :=
  intflist ← flatten intf [];
  actualIntf ← lookup_classes intflist [];
  if bool_decide (actualIntf = []) then
    Raise (TypeError "At least one Java interface must be specified")
  else
    check_interfaces (set_iter actualIntf).

End resolution.

(** ** The native proxy type *)

(** Modelled from the spec: the native allocator
    [_jpype._JProxy.__new__(tp, target, interfaces, convert)], which is not
    part of this module.  It yields an instance of [tp] that records the
    three arguments. *)
Definition JProxy_alloc (tp : tyref) (target : pyobj)
    (interfaces : list JClass) (convert : bool) : pyobj :=
  PProxy tp target interfaces convert.

(** Modelled from the spec: the native attribute [__javainst__] of a proxy
    instance, its recorded underlying host implementation.  An instance
    allocated with [None] in place of the delegate is its own
    implementation. *)
Definition __javainst__ (obj : pyobj) : result pyobj :=
  match obj with
  | PProxy _ PNone _ _ => Ok obj
  | PProxy _ target _ _ => Ok target
  | _ =>
      Raise (AttributeError
        ("'" +:+ type_name obj +:+ "' object has no attribute '__javainst__'"))
  end.

(** [isinstance(obj, _jpype._JProxy)].  The type of [obj] is tested first
    ([is_JProxy]); when that fails, [obj.__class__] is read, which for a
    [_JFromDict] goes through its [__getattribute__]: a missing key counts
    as no class, any other exception comes out of [isinstance], and a value
    found under the key is none of the proxy types. *)
Definition isinstance_JProxy (obj : pyobj) : result bool :=
  if is_JProxy obj then Ok true
  else
    match obj with
    | PFromDict _ =>
        match _JFromDict___getattribute__ obj "__class__" with
        | Ok _ => Ok false
        | Raise (AttributeError _) => Ok false
        | Raise e => Raise e
        end
    | _ => Ok false
    end.

(** [JProxy.unwrap(obj)]. *)
Definition unwrap (obj : pyobj) : result pyobj :=
  is_proxy ← isinstance_JProxy obj;
  if negb is_proxy then Ok obj
  else __javainst__ obj.

(** ** Type objects and the state of the program *)

(** A type made at run time: its [__name__], its ancestors among the run-time
    types in method resolution order, and the two members this module puts in
    its [__dict__]: [__new__] (the closure [new], that is the [cls] and
    [intf] it captured) and [__jpype_interfaces__].  The native base is
    taken not to define [__jpype_interfaces__]. *)
Record pytype : Type := {
  ty_name : string;
  ty_mro : list nat;
  ty_new : option (hostclass * list pyobj);
  ty_jpype_interfaces : option (list JClass)
}.

(** One call of the host class's [__init__]. *)
Record init_call : Type := {
  ic_self : pyobj;
  ic_args : list pyobj;
  ic_kwargs : list (string * pyobj)
}.

(** The state: the store of run-time types, and two records of what has
    happened so far, which the code does not read: the number of runs of
    [_prepareInterfaces] and the calls of [__init__], oldest first. *)
Record world : Type := {
  w_types : list pytype;
  w_resolutions : nat;
  w_inits : list init_call
}.

Definition world0 : world :=
  {| w_types := []; w_resolutions := 0; w_inits := [] |}.

(** The three ways the state changes. *)
Definition set_types (f : list pytype → list pytype) (w : world) : world :=
  {| w_types := f (w_types w);
     w_resolutions := w_resolutions w;
     w_inits := w_inits w |}.

Definition count_resolution (w : world) : world :=
  {| w_types := w_types w;
     w_resolutions := S (w_resolutions w);
     w_inits := w_inits w |}.

Definition log_init (c : init_call) (w : world) : world :=
  {| w_types := w_types w;
     w_resolutions := w_resolutions w;
     w_inits := w_inits w ++ [c] |}.

(** Computations that read and change the state and may raise; the state
    changes made before an exception is raised are kept. *)
Definition M (A : Type) : Type := world → result A * world.

Global Instance M_ret : MRet M := λ A a w, (Ok a, w).
Global Instance M_bind : MBind M := λ A B k m w,
  match m w with
  | (Ok a, w') => k a w'
  | (Raise e, w') => (Raise e, w')
  end.

Definition raise {A} (e : exn) : M A := λ w, (Raise e, w).
Definition lift {A} (r : result A) : M A := λ w, (r, w).
Definition get_world : M world := λ w, (Ok w, w).

(** The first type among [ts] whose own [__dict__] has the member [f]. *)
Fixpoint mro_find {A} (f : pytype → option A) (types : list pytype)
    (ts : list nat) : option A :=
  match ts with
  | [] => None
  | t :: rest =>
      match types !! t ≫= f with
      | Some a => Some a
      | None => mro_find f types rest
      end
  end.

Definition mro (types : list pytype) (tp : nat) : list nat :=
  tp :: default [] (ty_mro <$> types !! tp).

(** The lookup of [tp.__new__]. *)
Definition getattr_new (w : world) (tp : nat)
    : option (hostclass * list pyobj) :=
  mro_find ty_new (w_types w) (mro (w_types w) tp).

(** What a lookup of [__jpype_interfaces__] on a type finds: a set that this
    module attached to a run-time type, or whatever value the host class or
    one of its bases has under that name. *)
Inductive attribute : Type :=
| Attached (ifs : list JClass)
| Inherited (v : pyobj).

(** The lookup of a name in the host class and then in its bases. *)
Definition host_getattr (cls : hostclass) (name : string) : option pyobj :=
  head (omap (λ d : gmap string pyobj, d !! name) (cls_dict cls :: cls_bases cls)).

(** [tp.__jpype_interfaces__], when there is one: the run-time types come
    first in the method resolution order, the host class of the proxy type
    and its bases after them. *)
Definition getattr_value (w : world) (tp : nat) : option attribute :=
  match mro_find ty_jpype_interfaces (w_types w) (mro (w_types w) tp) with
  | Some ifs => Some (Attached ifs)
  | None =>
      match getattr_new w tp with
      | Some (cls, _) => Inherited <$> host_getattr cls "__jpype_interfaces__"
      | None => None
      end
  end.

(** [getattr(tp, "__jpype_interfaces__", None)], with [None] when the test
    [is None] holds of it: no attribute, or an attribute that is [None]. *)
Definition getattr_jpype_interfaces (w : world) (tp : nat)
    : option attribute :=
  match getattr_value w tp with
  | Some (Inherited PNone) => None
  | found => found
  end.

(** Modelled from the spec: the interface set the native allocator takes as
    its third argument.  A set attached by this module is one; of a value
    inherited from the host class, a sequence of wrapped Java classes is
    taken as one and anything else is taken to be refused. *)
Definition interfaces_argument (value : attribute) : result (list JClass) :=
  match value with
  | Attached ifs => Ok ifs
  | Inherited (PTuple items) | Inherited (PList items) =>
      match mapM (λ x, match x with PJClass c => Some c | _ => None end) items with
      | Some ifs => Ok ifs
      | None => Raise (TypeError "interfaces must be object class instances")
      end
  | Inherited _ =>
      Raise (TypeError "third argument must be a list of interface")
  end.

Definition tyref_of (w : world) (tp : nat) : tyref :=
  Ty_dyn tp (default "" (ty_name <$> w_types w !! tp)).

(** [tp.__jpype_interfaces__ = value]. *)
Definition attach (value : list JClass) (ty : pytype) : pytype :=
  {| ty_name := ty_name ty; ty_mro := ty_mro ty; ty_new := ty_new ty;
     ty_jpype_interfaces := Some value |}.

Definition setattr_jpype_interfaces (tp : nat) (value : list JClass) : M unit :=
  λ w, (Ok tt, set_types (alter (attach value) tp) w).

(** [tp.__jpype_interfaces__]. *)
Definition read_jpype_interfaces (tp : nat) : M attribute := λ w,
  match getattr_value w tp with
  | Some value => (Ok value, w)
  | None =>
      (Raise (AttributeError
         ("type object '" +:+ default "" (ty_name <$> w_types w !! tp) +:+
          "' has no attribute '__jpype_interfaces__'")), w)
  end.

(** [type(name, bases, members)]: a new type object in the store. *)
Definition type_new (ty : pytype) : M nat := λ w,
  (Ok (length (w_types w)), set_types (λ types, types ++ [ty]) w).

(** [tp.__init__(self, *args, **kwargs)] for a type whose initializer is the
    host class's. *)
Definition call_init (cls : hostclass) (self : pyobj) (args : list pyobj)
    (kwargs : list (string * pyobj)) : M unit := λ w,
  let w' := log_init {| ic_self := self; ic_args := args;
                        ic_kwargs := kwargs |} w in
  match cls_init cls self args kwargs with
  | None => (Ok tt, w')
  | Some e => (Raise e, w')
  end.

(** [isinstance(obj, tp)] for a run-time type [tp]. *)
Definition isinstance (w : world) (obj : pyobj) (tp : nat) : bool :=
  match obj with
  | PProxy (Ty_dyn t _) _ _ _ => bool_decide (tp ∈ mro (w_types w) t)
  | _ => false
  end.

Section proxies.
Variable JClass_lookup : string → result JClass.
Context {order : SetOrder}.

(** ** The legacy constructor *)

(** [JProxy.__new__(cls, intf, dict=None, inst=None, convert=False)]. *)
Definition JProxy___new__ (cls : tyref) (intf : pyobj) (dict inst : pyobj)
    (convert : bool) : result pyobj :=
  actualIntf ← _convertInterfaces JClass_lookup [intf];
  if negb (bool_decide (dict = PNone)) && negb (bool_decide (inst = PNone)) then
    Raise (TypeError "Specify only one of dict and inst")
  else if negb (bool_decide (dict = PNone)) then
    Ok (JProxy_alloc Ty_JProxyBase (_JFromDict dict) actualIntf convert)
  else if negb (bool_decide (inst = PNone)) then
    Ok (JProxy_alloc cls inst actualIntf convert)
  else
    Raise (TypeError "a dict or inst must be specified").

(** ** The class factory *)

(** The local function [_prepareInterfaces] of [_createJProxy]: its
    body, and the function, which counts the run. *)
Definition prepared (cls : hostclass) (intf : list pyobj)
    : result (list JClass) :=
  actualIntf ← _convertInterfaces JClass_lookup intf;
  overrides ← _classOverrides cls;
  _ ← _checkInterfaceOverrides actualIntf overrides;
  Ok actualIntf.

Definition _prepareInterfaces (cls : hostclass) (intf : list pyobj)
    : M (list JClass) := λ w,
  (prepared cls intf, count_resolution w).

(** The local function [new] of [_createJProxy], the [__new__] of the
    type it makes; [cls] and [intf] are the variables it captures, [args]
    and [kwargs] the arguments that bind to its starred parameters (a
    keyword named [tp] does not bind, and the call never reaches the
    body). *)
Definition new (cls : hostclass) (intf : list pyobj) (tp : nat)
    (args : list pyobj) (kwargs : list (string * pyobj)) : M pyobj :=
  w ← get_world;
  _ ← match getattr_jpype_interfaces w tp with
      | None =>
          actualIntf ← _prepareInterfaces cls intf;
          setattr_jpype_interfaces tp actualIntf
      | Some _ => mret tt
      end;
  value ← read_jpype_interfaces tp;
  interfaces ← lift (interfaces_argument value);
  w ← get_world;
  let self := JProxy_alloc (tyref_of w tp) PNone interfaces false in
  _ ← call_init cls self args kwargs;
  mret self.

(** The type [_createJProxy] returns: named after the class, with the
    members [__new__] and, when it is given, [__jpype_interfaces__]. *)
Definition proxy_type (cls : hostclass) (intf : list pyobj)
    (interfaces : option (list JClass)) : pytype :=
  {| ty_name := "proxy." +:+ cls_name cls;
     ty_mro := [];
     ty_new := Some (cls, intf);
     ty_jpype_interfaces := interfaces |}.

Definition _createJProxy (cls : hostclass) (intf : list pyobj)
    (kwargs : list (string * pyobj)) : M nat :=
  let deferred := truthy (default (PBool false) (dict_get kwargs "deferred")) in
  let kwargs := filter (λ kv, kv.1 ≠ "deferred") kwargs in
  if negb (bool_decide (kwargs = [])) then
    raise (TypeError ("Invalid keywords: " +:+ String.concat "," (kwargs.*1)))
  else
    interfaces ← (if negb deferred then
                    actualIntf ← _prepareInterfaces cls intf;
                    mret (Some actualIntf)
                  else mret None);
    type_new (proxy_type cls intf interfaces).

(** The decorator [JImplements], given the interfaces and the keyword
    options and applied to the class.  It passes the options on as keyword
    arguments after the class: an option named [cls] meets the first
    parameter of [_createJProxy] a second time and the call is refused. *)
Definition JImplements (interfaces : list pyobj)
    (kwargs : list (string * pyobj)) (cls : hostclass) : M nat :=
  if bool_decide ("cls" ∈ kwargs.*1) then
    raise (TypeError "_createJProxy() got multiple values for argument 'cls'")
  else _createJProxy cls interfaces kwargs.

(** ** Instantiation *)

(** Calling the type [tp] with arguments, the language's
    [type.__call__]: call
    [tp.__new__], then [__init__] on the object it returns when that is an
    instance of [tp]. *)
Definition type_call (tp : nat) (args : list pyobj)
    (kwargs : list (string * pyobj)) : M pyobj :=
  w ← get_world;
  match getattr_new w tp with
  | None =>
      raise (TypeError ("cannot create '" +:+
                        default "" (ty_name <$> w_types w !! tp) +:+
                        "' instances"))
  | Some (cls, intf) =>
      self ← new cls intf tp args kwargs;
      w ← get_world;
      if isinstance w self tp then
        _ ← call_init cls self args kwargs;
        mret self
      else mret self
  end.

(** [class name(base): pass]: a subclass that declares nothing. *)
Definition subclass (name : string) (base : nat) : M nat :=
  w ← get_world;
  type_new {| ty_name := name;
              ty_mro := mro (w_types w) base;
              ty_new := None;
              ty_jpype_interfaces := None |}.

End proxies.

(** ** The vocabulary of the specification *)

(** A method is abstract when bit 10 (0x400 = 1024) of its modifiers is set. *)
Definition abstract (m : Method) : Prop := Z.testbit (getModifiers m) 10 = true.

(** What one method asks of the overrides: a key for its name when it is
    abstract, nothing otherwise. *)
Definition satisfied {V} (overrides : gmap string V) (m : Method) : Prop :=
  abstract m → is_Some (overrides !! getName m).

(** What an item of an interface specification contributes, in the
    specification's words: the elements of a non-string iterable, and the
    item itself otherwise (a string is kept whole). *)
Definition one_level (item : pyobj) : list pyobj :=
  match item with
  | PList items | PTuple items => items
  | PDict d => (λ kv, PStr kv.1) <$> d
  | _ => [item]
  end.

(** The descriptor an item stands for: a string is resolved by the foreign
    runtime's class lookup, any other item is used as it is. *)
Definition descriptor_of (JClass_lookup : string → result JClass)
    (item : pyobj) : result pyobj :=
  match item with
  | PStr name => PJClass <$> JClass_lookup name
  | _ => Ok item
  end.

(** The set of descriptors a specification resolves to, before it is
    validated. *)
Definition resolved_set (JClass_lookup : string → result JClass)
    (intf : list pyobj) : result (list pyobj) :=
  intflist ← flatten intf [];
  lookup_classes JClass_lookup intflist [].


(** The keyword arguments that select the binding mode. *)
Definition mode (deferred : bool) : list (string * pyobj) :=
  [("deferred", PBool deferred)].

(** The instance [new] allocates for the type [tp], and what a call of
    [__init__] on an instance gives. *)
Definition fresh_instance (w : world) (tp : nat) (ifs : list JClass) : pyobj :=
  PProxy (tyref_of w tp) PNone ifs false.

Definition init_outcome (cls : hostclass) (self : pyobj) (args : list pyobj)
    (kwargs : list (string * pyobj)) : result pyobj :=
  match cls_init cls self args kwargs with
  | None => Ok self
  | Some e => Raise e
  end.

(** The end of an instantiation once the instance [self] is allocated in
    the state [w]: [__init__] is called by [new]; when it returns, it is
    called again by the instantiation protocol. *)
Definition initialized (cls : hostclass) (self : pyobj) (args : list pyobj)
    (kwargs : list (string * pyobj)) (w : world) : result pyobj * world :=
  let c := {| ic_self := self; ic_args := args; ic_kwargs := kwargs |} in
  match cls_init cls self args kwargs with
  | Some e => (Raise e, log_init c w)
  | None => (Ok self, log_init c (log_init c w))
  end.

(** The interfaces a proxy instance was allocated with. *)
Definition proxy_interfaces (obj : pyobj) : option (list JClass) :=
  match obj with
  | PProxy _ _ interfaces _ => Some interfaces
  | _ => None
  end.

(** ** Example data *)

Definition run_method : Method :=
  {| getName := "run"; getModifiers := 1025 |}.

Definition Runnable : JClass :=
  {| cls___name__ := "java.lang.Runnable";
     class_getName := "java.lang.Runnable";
     class_getMethods := [run_method];
     is_JInterface := true;
     has___iter__ := false |}.

Definition Thread : JClass :=
  {| cls___name__ := "java.lang.Thread";
     class_getName := "java.lang.Thread";
     class_getMethods := [run_method];
     is_JInterface := false;
     has___iter__ := false |}.

(** An interface whose wrapper has [__iter__]. *)
Definition Iterable : JClass :=
  {| cls___name__ := "java.lang.Iterable";
     class_getName := "java.lang.Iterable";
     class_getMethods := [{| getName := "iterator"; getModifiers := 1025 |}];
     is_JInterface := true;
     has___iter__ := true |}.

Definition example_lookup (name : string) : result JClass :=
  if String.eqb name "java.lang.Runnable" then Ok Runnable
  else if String.eqb name "java.lang.Thread" then Ok Thread
  else Raise (JavaError ("Class " +:+ name +:+ " not found")).

(** A class that overrides [run], and one that declares nothing. *)
Definition MyImpl : hostclass :=
  {| cls_name := "MyImpl";
     cls_dict := {[ "run" := PFunction "run" (Some (PDict [])) ]};
     cls_bases := [];
     cls_init := λ _ _ _, None |}.

Definition Incomplete : hostclass :=
  {| cls_name := "Incomplete";
     cls_dict := ∅;
     cls_bases := [{[ "run" := PFunction "run" (Some (PDict [])) ]}];
     cls_init := λ _ _ _, None |}.

(** The state after the deferred declaration of [MyImpl] as a
    [java.lang.Runnable], and the instance its type (number 0) allocates. *)
Definition deferred_world : world :=
  (_createJProxy example_lookup (order := insertion_order) MyImpl
     [PStr "java.lang.Runnable"] (mode true) world0).2.

Definition MyImpl_instance : pyobj :=
  PProxy (Ty_dyn 0 "proxy.MyImpl") PNone [Runnable] false.

(** A legacy proxy that delegates to an object, and one that delegates to
    that proxy. *)
Definition inner_proxy : pyobj :=
  PProxy Ty_JProxy (PObject "Impl" 1) [Runnable] false.


(** What the class and its bases contribute to
    [getattr(tp, "__jpype_interfaces__", None)]: nothing when they have no
    such attribute or have it as [None], the value they have otherwise. *)
Definition inherited_attribute (cls : hostclass) : option attribute :=
  match host_getattr cls "__jpype_interfaces__" with
  | None | Some PNone => None
  | Some v => Some (Inherited v)
  end.

(** The class itself declares an override of the name. *)
Definition overridden (cls : hostclass) (name : string) : Prop :=
  ∃ v attr, cls_dict cls !! name = Some v ∧ getattribute_joverride v = Ok attr.

(** The exception for a method of an interface that is not overridden. *)
Definition MissingOverrideError (interface : JClass) (m : Method) : exn :=
  NotImplementedError
    ("Interface '" +:+ class_getName interface +:+
     "' requires method '" +:+ getName m +:+ "' to be implemented.").

(** No wrapped Java class that has [__iter__] is given directly as an item. *)
Definition no_iterable_class (intf : list pyobj) : Prop :=
  Forall (λ item, ∀ c, item = PJClass c → has___iter__ c = false) intf.

(** An item resolution accepts: a string the class lookup resolves to an
    interface, or a wrapped Java class that is an interface. *)
Definition acceptable (JClass_lookup : string → result JClass)
    (item : pyobj) : Prop :=
  ∃ c, descriptor_of JClass_lookup item = Ok (PJClass c) ∧
       is_JInterface c = true.

(** What holds of every interface set the module attaches or allocates
    with: it is not empty, has no duplicates and holds interfaces only. *)
Definition good_interfaces (ifs : list JClass) : Prop :=
  ifs ≠ [] ∧ NoDup ifs ∧ Forall (λ c, is_JInterface c = true) ifs.

Definition world_good (w : world) : Prop :=
  Forall (λ ty, ∀ ifs, ty_jpype_interfaces ty = Some ifs → good_interfaces ifs)
    (w_types w).

(** A class that overrides [run] and whose initializer raises. *)
Definition Failing : hostclass :=
  {| cls_name := "Failing";
     cls_dict := {[ "run" := PFunction "run" (Some (PDict [])) ]};
     cls_bases := [];
     cls_init := λ _ _ _, Some (TypeError "bad argument") |}.




(** The state after the deferred declaration of [Failing], and the state in
    which [MyImpl]'s type (number 0) has been instantiated once and then
    given a subclass (number 1) that declares nothing. *)
Definition failing_world : world :=
  (_createJProxy example_lookup (order := insertion_order) Failing
     [PStr "java.lang.Runnable"] (mode true) world0).2.

Definition shared_world : world :=
  (subclass "Sub" 0
     (type_call example_lookup (order := insertion_order) 0 [] []
        deferred_world).2).2.

(** * Properties *)

(** ** Override validation *)

Lemma land_1024_testbit (x : Z) :
  (Z.land x 1024 =? 0) = negb (Z.testbit x 10).
Proof.
  assert (H : Z.land x 1024 = if Z.testbit x 10 then 1024 else 0).
  { apply Z.bits_inj'. intros n Hn. rewrite Z.land_spec.
    change 1024 with (2 ^ 10). rewrite Z.pow2_bits_eqb by lia.
    destruct (Z.eqb_spec 10 n) as [<-|Hne].
    - rewrite andb_true_r. destruct (Z.testbit x 10); [|by rewrite Z.bits_0].
      by rewrite Z.pow2_bits_eqb, Z.eqb_refl by lia.
    - rewrite andb_false_r. destruct (Z.testbit x 10); [|by rewrite Z.bits_0].
      rewrite Z.pow2_bits_eqb by lia. symmetry. by apply Z.eqb_neq. }
  rewrite H. by destruct (Z.testbit x 10).
Qed.

Lemma getattribute_joverride_raises (v : pyobj) (e : exn) :
  getattribute_joverride v = Raise e → ∃ msg, e = AttributeError msg.
Proof.
  destruct v as [| | | | | |? [?|]| | | |]; simpl; intros [= <-]; eauto.
Qed.

Lemma classOverrides_lookup (cls : hostclass) :
  ∃ overrides,
    _classOverrides cls = Ok overrides ∧
    ∀ k v attr,
      overrides !! k = Some (v, attr) ↔
      cls_dict cls !! k = Some v ∧ getattribute_joverride v = Ok attr.
Proof.
  unfold _classOverrides.
  apply (map_fold_weak_ind
    (λ r (m : gmap string pyobj), ∃ overrides, r = Ok overrides ∧
       ∀ k v attr, overrides !! k = Some (v, attr) ↔
                   m !! k = Some v ∧ getattribute_joverride v = Ok attr)).
  - exists ∅. split; [done|]. intros k v attr. rewrite !lookup_empty.
    split; [done|by intros [? _]].
  - intros i x m r Hi (ov & -> & IH). unfold classOverrides_step. simpl.
    destruct (getattribute_joverride x) as [a|e] eqn:Hx.
    + eexists. split; [done|]. intros k v attr.
      destruct (decide (i = k)) as [->|Hne].
      * rewrite !lookup_insert_eq. split.
        -- by intros [= <- <-].
        -- intros [[= <-] Hv]. congruence.
      * rewrite !lookup_insert_ne by done. apply IH.
    + destruct (getattribute_joverride_raises _ _ Hx) as [msg ->].
      exists ov. split; [done|]. intros k v attr.
      destruct (decide (i = k)) as [->|Hne].
      * rewrite lookup_insert_eq. split.
        -- intros [Hk _]%IH. congruence.
        -- intros [[= <-] Hv]. congruence.
      * rewrite lookup_insert_ne by done. apply IH.
Qed.

Section check.
Context {V : Type}.
Implicit Types (overrides : gmap string V) (interface : JClass).

Lemma check_methods_ok interface methods overrides :
  check_methods interface methods overrides = Ok tt ↔
  Forall (satisfied overrides) methods.
Proof.
  induction methods as [|m ms IH]; simpl.
  - split; [constructor|done].
  - rewrite Forall_cons, <- IH, land_1024_testbit. unfold satisfied, abstract.
    destruct (Z.testbit (getModifiers m) 10); simpl.
    + destruct (overrides !! getName m) eqn:Hm.
      * split; [intros ->; split; [eauto|done]|by intros [_ ?]].
      * split; [done|]. intros [H _]. destruct (H eq_refl) as [? [=]].
    + split; [intros ->; split; [done|done]|by intros [_ ?]].
Qed.

Lemma check_methods_raise interface methods overrides e :
  check_methods interface methods overrides = Raise e →
  ∃ mpre m mpost,
    methods = mpre ++ m :: mpost ∧
    Forall (satisfied overrides) mpre ∧
    abstract m ∧ overrides !! getName m = None ∧
    e = NotImplementedError
          ("Interface '" +:+ class_getName interface +:+
           "' requires method '" +:+ getName m +:+ "' to be implemented.").
Proof.
  induction methods as [|m ms IH]; simpl; [done|].
  rewrite land_1024_testbit.
  destruct (Z.testbit (getModifiers m) 10) eqn:Hbit; simpl.
  - destruct (overrides !! getName m) eqn:Hm.
    + intros (mpre & m' & mpost & -> & Hpre & ?)%IH.
      exists (m :: mpre), m', mpost. split; [done|]. split; [|done].
      constructor; [|done]. intros _. rewrite Hm. eauto.
    + intros [= <-]. exists [], m, ms. repeat split; done || constructor.
  - intros (mpre & m' & mpost & -> & Hpre & ?)%IH.
    exists (m :: mpre), m', mpost. split; [done|]. split; [|done].
    constructor; [|done]. unfold satisfied, abstract. by rewrite Hbit.
Qed.

Lemma checkInterfaceOverrides_ok (interfaces : list JClass) overrides :
  _checkInterfaceOverrides interfaces overrides = Ok tt ↔
  Forall (λ i, Forall (satisfied overrides) (class_getMethods i)) interfaces.
Proof.
  induction interfaces as [|i rest IH]; simpl.
  - split; [constructor|done].
  - rewrite Forall_cons, <- IH, <- (check_methods_ok i).
    destruct (check_methods i (class_getMethods i) overrides) as [[]|e]; simpl.
    + split; [by intros ->|by intros [_ ?]].
    + split; [done|]. by intros [? _].
Qed.

Lemma checkInterfaceOverrides_raise (interfaces : list JClass) overrides e :
  _checkInterfaceOverrides interfaces overrides = Raise e →
  ∃ ipre i ipost mpre m mpost,
    interfaces = ipre ++ i :: ipost ∧
    class_getMethods i = mpre ++ m :: mpost ∧
    Forall (λ i, Forall (satisfied overrides) (class_getMethods i)) ipre ∧
    Forall (satisfied overrides) mpre ∧
    abstract m ∧ overrides !! getName m = None ∧
    e = NotImplementedError
          ("Interface '" +:+ class_getName i +:+
           "' requires method '" +:+ getName m +:+ "' to be implemented.").
Proof.
  induction interfaces as [|i rest IH]; simpl; [done|].
  destruct (check_methods i (class_getMethods i) overrides) as [[]|e'] eqn:Hi;
    simpl.
  - intros (ipre & i' & ipost & mpre & m & mpost & -> & ? & Hpre & ?)%IH.
    exists (i :: ipre), i', ipost, mpre, m, mpost.
    split; [done|]. split; [done|]. split; [|done].
    constructor; [|done]. by apply (check_methods_ok i).
  - intros [= <-].
    apply check_methods_raise in Hi as (mpre & m & mpost & ? & ? & ? & ? & ?).
    exists [], i, rest, mpre, m, mpost. repeat split; done || constructor.
Qed.
End check.

(** C1: Override validation of a host class considers only the members
    declared on the class itself that carry the [__joverride__] metadata:
    the collected overrides are exactly those members, and a name the class
    does not declare itself is never among them, whatever its base classes
    declare.  Validation succeeds if and only if, for every interface of the
    set, every method whose modifiers have bit 0x400 set has its name among
    those members; methods with the bit clear ask for nothing.  When it
    fails it raises [NotImplementedError] for the first missing name in
    iteration order, naming the interface's qualified name and the method's
    name, every method before it being satisfied. *)
Theorem C1_override_validation (cls : hostclass) (interfaces : list JClass) :
  ∃ overrides,
    _classOverrides cls = Ok overrides ∧
    (∀ k v attr,
        overrides !! k = Some (v, attr) ↔
        cls_dict cls !! k = Some v ∧ getattribute_joverride v = Ok attr) ∧
    (∀ k, cls_dict cls !! k = None → overrides !! k = None) ∧
    (_checkInterfaceOverrides interfaces overrides = Ok tt ↔
       ∀ i m, i ∈ interfaces → m ∈ class_getMethods i →
              Z.testbit (getModifiers m) 10 = true →
              ∃ v attr, cls_dict cls !! getName m = Some v ∧
                        getattribute_joverride v = Ok attr) ∧
    (∀ e, _checkInterfaceOverrides interfaces overrides = Raise e →
       ∃ ipre i ipost mpre m mpost,
         interfaces = ipre ++ i :: ipost ∧
         class_getMethods i = mpre ++ m :: mpost ∧
         Forall (λ i, Forall (satisfied overrides) (class_getMethods i)) ipre ∧
         Forall (satisfied overrides) mpre ∧
         Z.testbit (getModifiers m) 10 = true ∧
         overrides !! getName m = None ∧
         e = NotImplementedError
               ("Interface '" +:+ class_getName i +:+
                "' requires method '" +:+ getName m +:+
                "' to be implemented.")).
Proof.
  destruct (classOverrides_lookup cls) as (ov & Hov & Hlook).
  exists ov. split; [done|]. split; [done|]. split; [|split].
  - intros k Hk. destruct (ov !! k) as [[v attr]|] eqn:Hovk; [|done].
    apply Hlook in Hovk as [? _]. congruence.
  - rewrite checkInterfaceOverrides_ok, Forall_forall. split.
    + intros H i m Hi Hm Habs. specialize (H i Hi).
      rewrite Forall_forall in H. destruct (H m Hm Habs) as [[v attr] Hv].
      exists v, attr. by apply Hlook.
    + intros H i Hi. apply Forall_forall. intros m Hm Habs.
      destruct (H i m Hi Hm Habs) as (v & attr & Hv).
      exists (v, attr). by apply Hlook.
  - intros e He. by apply checkInterfaceOverrides_raise in He.
Qed.

(** ** Interface resolution *)

Lemma flatten_ok (intf intflist r : list pyobj) :
  flatten intf intflist = Ok r → r = intflist ++ concat (one_level <$> intf).
Proof.
  revert intflist. induction intf as [|item rest IH]; intros acc; simpl.
  - intros [= <-]. by rewrite app_nil_r.
  - destruct item as [| | | | |c| | | | |]; simpl;
      try (intros ->%IH; by rewrite <- ?app_assoc).
    + destruct (has___iter__ c); simpl; [done|].
      intros ->%IH; by rewrite <- ?app_assoc.
    + destruct (getitem _ "__iter__") as [?|[]]; simpl;
        try done; intros ->%IH; by rewrite <- ?app_assoc.
Qed.

Lemma check_interfaces_ok (actualIntf : list pyobj) (cs : list JClass) :
  check_interfaces actualIntf = Ok cs ↔
  actualIntf = PJClass <$> cs ∧ Forall (λ c, is_JInterface c = true) cs.
Proof.
  revert cs. induction actualIntf as [|x rest IH]; intros cs; simpl.
  - split.
    + intros [= <-]. split; [done|constructor].
    + intros [H _]. destruct cs; [done|discriminate].
  - destruct x; try (split; [done|by intros [H _]; destruct cs]).
    destruct (is_JInterface c) eqn:Hc.
    + destruct (check_interfaces rest) as [cs'|e]; simpl.
      * split.
        -- intros [= <-]. destruct (proj1 (IH cs') eq_refl) as [-> ?].
           split; [done|by constructor].
        -- intros [H HF]. destruct cs as [|c' cs]; [done|].
           simpl in H. injection H as <- ->.
           apply Forall_cons in HF as [_ HF].
           assert (Ok cs' = Ok cs) as [= ->] by (by apply IH). done.
      * split; [done|]. intros [H HF]. destruct cs as [|c' cs]; [done|].
        simpl in H. injection H as <- ->. apply Forall_cons in HF as [_ HF].
        assert (Raise e = Ok cs) as [=] by (by apply IH).
    + split; [done|]. intros [H HF]. destruct cs as [|c' cs]; [done|].
      simpl in H. injection H as <- ->. apply Forall_cons in HF as [HF _].
      congruence.
Qed.



Lemma set_add_ok (x : pyobj) (s s' : list pyobj) :
  set_add x s = Ok s' → NoDup s →
  hashable x = true ∧ NoDup s' ∧ ∀ y, y ∈ s' ↔ y ∈ s ∨ y = x.
Proof.
  unfold set_add. destruct (hashable x); [|done]. intros [= <-] Hs.
  split; [done|]. destruct (decide (x ∈ s)) as [Hin|Hnin].
  - split; [done|]. intros y. split; [auto|]. by intros [?| ->].
  - split.
    + apply NoDup_app. split; [done|]. split; [|apply NoDup_singleton].
      intros y Hy ->%list_elem_of_singleton. done.
    + intros y. rewrite elem_of_app, list_elem_of_singleton. done.
Qed.

Section resolution_properties.
Variable JClass_lookup : string → result JClass.
Context {order : SetOrder}.

Lemma lookup_classes_ok (intflist s s' : list pyobj) :
  lookup_classes JClass_lookup intflist s = Ok s' → NoDup s →
  NoDup s' ∧
  (∀ x, x ∈ s' ↔
        x ∈ s ∨ ∃ item, item ∈ intflist ∧
                        descriptor_of JClass_lookup item = Ok x) ∧
  Forall (λ item, ∃ x, descriptor_of JClass_lookup item = Ok x ∧
                       hashable x = true) intflist.
Proof.
  revert s. induction intflist as [|item rest IH]; intros s; simpl.
  - intros [= <-] Hs. split; [done|]. split; [|constructor].
    intros x. split; [auto|]. intros [?|(? & []%elem_of_nil & _)]. done.
  - change (match item with
            | PStr name => PJClass <$> JClass_lookup name
            | _ => Ok item
            end) with (descriptor_of JClass_lookup item).
    destruct (descriptor_of JClass_lookup item) as [x|e] eqn:Hitem;
      simpl; [|done].
    destruct (set_add x s) as [s1|e] eqn:Hadd; simpl; [|done].
    intros Hrest Hs.
    destruct (set_add_ok _ _ _ Hadd Hs) as (Hh & Hs1 & Hmem1).
    destruct (IH _ Hrest Hs1) as (Hnd & Hmem & HF).
    split; [done|]. split; [|constructor; eauto].
    intros y. rewrite Hmem, Hmem1. split.
    + intros [[?| ->]|(it & Hit & ?)]; [by left| |].
      * right. exists item. split; [apply list_elem_of_here|done].
      * right. exists it. split; [by apply list_elem_of_further|done].
    + intros [?|(it & Hit & Hd)]; [by left; left|].
      apply elem_of_cons in Hit as [->|Hit].
      * left; right. congruence.
      * right. eauto.
Qed.

Lemma resolved_set_ok (intf s : list pyobj) :
  resolved_set JClass_lookup intf = Ok s →
  NoDup s ∧
  ∀ x, x ∈ s ↔ ∃ item, item ∈ concat (one_level <$> intf) ∧
                       descriptor_of JClass_lookup item = Ok x.
Proof.
  unfold resolved_set.
  destruct (flatten intf []) as [intflist|e] eqn:Hflat; simpl; [|done].
  apply flatten_ok in Hflat. simpl in Hflat. subst intflist. intros H.
  destruct (lookup_classes_ok _ _ _ H (NoDup_nil_2)) as (Hnd & Hmem & _).
  split; [done|]. intros x. rewrite Hmem. split.
  - intros [[]%elem_of_nil|?]. done.
  - auto.
Qed.

Lemma convertInterfaces_unfold (intf : list pyobj) :
  _convertInterfaces JClass_lookup intf =
  actualIntf ← resolved_set JClass_lookup intf;
  if bool_decide (actualIntf = []) then
    Raise (TypeError "At least one Java interface must be specified")
  else check_interfaces (set_iter actualIntf).
Proof.
  unfold _convertInterfaces, resolved_set.
  by destruct (flatten intf []).
Qed.

(** What a successful resolution returns. *)
Lemma convertInterfaces_ok (intf : list pyobj) (resolved : list JClass) :
  _convertInterfaces JClass_lookup intf = Ok resolved →
  resolved ≠ [] ∧ NoDup resolved ∧
  Forall (λ c, is_JInterface c = true) resolved ∧
  (∀ c, c ∈ resolved ↔
        ∃ item, item ∈ concat (one_level <$> intf) ∧
                descriptor_of JClass_lookup item = Ok (PJClass c)) ∧
  (∀ item, item ∈ concat (one_level <$> intf) →
           ∃ c, descriptor_of JClass_lookup item = Ok (PJClass c) ∧
                c ∈ resolved).
Proof.
  rewrite convertInterfaces_unfold.
  destruct (resolved_set JClass_lookup intf) as [s|e] eqn:Hs; simpl; [|done].
  case_bool_decide as Hne; [done|].
  intros [Hperm HF]%check_interfaces_ok.
  destruct (resolved_set_ok _ _ Hs) as (Hnd & Hmem).
  pose proof (set_iter_perm s) as Hp. rewrite Hperm in Hp.
  assert (Hin : ∀ c, c ∈ resolved ↔ PJClass c ∈ s).
  { intros c. rewrite <- Hp. rewrite list_elem_of_fmap. split.
    - intros ?. by exists c.
    - by intros (c' & [= ->] & ?). }
  split; [|split; [|split; [done|split]]].
  - intros ->. simpl in Hp. apply Permutation_nil_l in Hp. done.
  - apply (NoDup_fmap_1 PJClass). by rewrite Hp.
  - intros c. by rewrite Hin, Hmem.
  - intros item Hitem.
    assert (∃ x, descriptor_of JClass_lookup item = Ok x ∧ x ∈ s)
      as (x & Hx & Hxs).
    { unfold resolved_set in Hs.
      destruct (flatten intf []) as [intflist|] eqn:Hflat; [|done].
      apply flatten_ok in Hflat. simpl in Hflat, Hs. subst intflist.
      destruct (lookup_classes_ok _ _ _ Hs (NoDup_nil_2)) as (_ & Hm & HF').
      rewrite Forall_forall in HF'. destruct (HF' item Hitem) as (x & Hx & _).
      exists x. split; [done|]. apply Hm. right. eauto. }
    rewrite <- Hp in Hxs. apply list_elem_of_fmap in Hxs as (c & -> & Hc).
    eauto.
Qed.

End resolution_properties.

(** ** The type store *)

Lemma mro_find_alter_new (v : list JClass) (tp : nat) (types : list pytype)
    (ts : list nat) :
  mro_find ty_new (alter (attach v) tp types) ts = mro_find ty_new types ts.
Proof.
  induction ts as [|t rest IH]; simpl; [done|]. rewrite IH.
  destruct (decide (tp = t)) as [->|Hne].
  - rewrite list_lookup_alter_eq. by destruct (types !! t).
  - by rewrite list_lookup_alter_ne.
Qed.

Lemma mro_alter (v : list JClass) (tp t : nat) (types : list pytype) :
  mro (alter (attach v) tp types) t = mro types t.
Proof.
  unfold mro. destruct (decide (tp = t)) as [->|Hne].
  - rewrite list_lookup_alter_eq. by destruct (types !! t).
  - by rewrite list_lookup_alter_ne.
Qed.

Lemma getattr_new_attach (v : list JClass) (tp t : nat) (w : world) :
  getattr_new (set_types (alter (attach v) tp) w) t = getattr_new w t.
Proof.
  unfold getattr_new, set_types. cbn [w_types].
  by rewrite mro_alter, mro_find_alter_new.
Qed.

Lemma getattr_store_found (w : world) (tp : nat) (ifs : list JClass) :
  mro_find ty_jpype_interfaces (w_types w) (mro (w_types w) tp) = Some ifs →
  getattr_value w tp = Some (Attached ifs) ∧
  getattr_jpype_interfaces w tp = Some (Attached ifs).
Proof. unfold getattr_jpype_interfaces, getattr_value. by intros ->. Qed.

Lemma getattr_store_not_found (w : world) (tp : nat) (cls : hostclass)
    (intf : list pyobj) :
  mro_find ty_jpype_interfaces (w_types w) (mro (w_types w) tp) = None →
  getattr_new w tp = Some (cls, intf) →
  getattr_value w tp = Inherited <$> host_getattr cls "__jpype_interfaces__" ∧
  getattr_jpype_interfaces w tp = inherited_attribute cls.
Proof.
  unfold getattr_jpype_interfaces, getattr_value, inherited_attribute.
  intros -> ->. split; [done|].
  by destruct (host_getattr cls "__jpype_interfaces__") as [[]|].
Qed.

Lemma getattr_None_store (w : world) (tp : nat) :
  getattr_jpype_interfaces w tp = None →
  mro_find ty_jpype_interfaces (w_types w) (mro (w_types w) tp) = None.
Proof.
  unfold getattr_jpype_interfaces, getattr_value.
  by destruct (mro_find _ _ _).
Qed.

Lemma getattr_value_attach (v : list JClass) (tp : nat) (w : world) :
  (tp < length (w_types w))%nat →
  getattr_value (set_types (alter (attach v) tp) w) tp = Some (Attached v).
Proof.
  intros Hlt. apply getattr_store_found. unfold mro. simpl.
  rewrite list_lookup_alter_eq.
  destruct (lookup_lt_is_Some_2 _ _ Hlt) as [ty ->]. done.
Qed.

Lemma getattr_jpype_interfaces_attach (v : list JClass) (tp : nat) (w : world) :
  (tp < length (w_types w))%nat →
  getattr_jpype_interfaces (set_types (alter (attach v) tp) w) tp
  = Some (Attached v).
Proof.
  intros Hlt. apply getattr_store_found. unfold mro. simpl.
  rewrite list_lookup_alter_eq.
  destruct (lookup_lt_is_Some_2 _ _ Hlt) as [ty ->]. done.
Qed.


Lemma tyref_of_attach (v : list JClass) (tp t : nat) (w : world) :
  tyref_of (set_types (alter (attach v) tp) w) t = tyref_of w t.
Proof.
  unfold tyref_of. simpl. destruct (decide (tp = t)) as [->|Hne].
  - rewrite list_lookup_alter_eq. by destruct (w_types w !! t).
  - by rewrite list_lookup_alter_ne.
Qed.

Lemma isinstance_self (w : world) (tp : nat) (name : string) (target : pyobj)
    (interfaces : list JClass) (convert : bool) :
  isinstance w (PProxy (Ty_dyn tp name) target interfaces convert) tp = true.
Proof.
  unfold isinstance, mro. apply bool_decide_eq_true. apply list_elem_of_here.
Qed.

(** The type [_createJProxy] adds to the store. *)
Lemma lookup_new_type (w : world) (ty : pytype) :
  w_types (set_types (λ types, types ++ [ty]) w) !! length (w_types w) = Some ty.
Proof. simpl. by rewrite list_lookup_middle. Qed.

Lemma getattr_new_new_type (w : world) (cls : hostclass) (intf : list pyobj)
    (interfaces : option (list JClass)) :
  getattr_new (set_types (λ types, types ++ [proxy_type cls intf interfaces]) w)
    (length (w_types w)) = Some (cls, intf).
Proof.
  unfold getattr_new, mro. rewrite lookup_new_type. simpl.
  by rewrite list_lookup_middle.
Qed.

Lemma getattr_interfaces_new_type (w : world) (cls : hostclass)
    (intf : list pyobj) (interfaces : option (list JClass)) :
  getattr_jpype_interfaces
    (set_types (λ types, types ++ [proxy_type cls intf interfaces]) w)
    (length (w_types w))
  = match interfaces with
    | Some ifs => Some (Attached ifs)
    | None => inherited_attribute cls
    end.
Proof.
  destruct interfaces as [ifs|].
  - apply getattr_store_found. unfold mro. rewrite lookup_new_type. simpl.
    by rewrite list_lookup_middle.
  - eapply getattr_store_not_found; [|apply getattr_new_new_type].
    unfold mro. rewrite lookup_new_type. simpl.
    by rewrite list_lookup_middle.
Qed.

Section proxy_properties.
Variable JClass_lookup : string → result JClass.
Context {order : SetOrder}.

Lemma createJProxy_eager (cls : hostclass) (intf : list pyobj)
    (kwargs : list (string * pyobj)) (w : world) :
  kwargs = [] ∨ kwargs = mode false →
  _createJProxy JClass_lookup cls intf kwargs w =
  match prepared JClass_lookup cls intf with
  | Ok ifs =>
      (Ok (length (w_types w)),
       set_types (λ types, types ++ [proxy_type cls intf (Some ifs)])
         (count_resolution w))
  | Raise e => (Raise e, count_resolution w)
  end.
Proof.
  intros [->| ->]; unfold _createJProxy, _prepareInterfaces; simpl;
    unfold mbind, M_bind; by destruct (prepared JClass_lookup cls intf).
Qed.


Lemma getattr_Some_value (w : world) (tp : nat) (a : attribute) :
  getattr_jpype_interfaces w tp = Some a → getattr_value w tp = Some a.
Proof.
  unfold getattr_jpype_interfaces.
  destruct (getattr_value w tp) as [[ifs|[]]|]; by intros [= <-].
Qed.

Lemma new_found (cls : hostclass) (intf : list pyobj) (tp : nat)
    (args : list pyobj) (kwargs : list (string * pyobj)) (w : world)
    (a : attribute) :
  getattr_jpype_interfaces w tp = Some a →
  new JClass_lookup cls intf tp args kwargs w =
  match interfaces_argument a with
  | Raise e => (Raise e, w)
  | Ok ifs =>
      let self := fresh_instance w tp ifs in
      (init_outcome cls self args kwargs,
       log_init {| ic_self := self; ic_args := args; ic_kwargs := kwargs |} w)
  end.
Proof.
  intros H. unfold new, mbind, M_bind, get_world, read_jpype_interfaces, lift.
  rewrite H. simpl. rewrite (getattr_Some_value _ _ _ H).
  destruct (interfaces_argument a) as [ifs|e]; [|done].
  unfold call_init, init_outcome, fresh_instance.
  simpl. by destruct (cls_init _ _ _ _).
Qed.

Lemma new_attached (cls : hostclass) (intf : list pyobj) (tp : nat)
    (args : list pyobj) (kwargs : list (string * pyobj)) (w : world)
    (ifs : list JClass) :
  getattr_jpype_interfaces w tp = Some (Attached ifs) →
  new JClass_lookup cls intf tp args kwargs w =
  let self := fresh_instance w tp ifs in
  (init_outcome cls self args kwargs,
   log_init {| ic_self := self; ic_args := args; ic_kwargs := kwargs |} w).
Proof. intros H. by rewrite (new_found _ _ _ _ _ _ _ H). Qed.

Lemma new_unattached (cls : hostclass) (intf : list pyobj) (tp : nat)
    (args : list pyobj) (kwargs : list (string * pyobj)) (w : world) :
  getattr_jpype_interfaces w tp = None →
  (tp < length (w_types w))%nat →
  new JClass_lookup cls intf tp args kwargs w =
  match prepared JClass_lookup cls intf with
  | Raise e => (Raise e, count_resolution w)
  | Ok ifs =>
      let self := fresh_instance w tp ifs in
      (init_outcome cls self args kwargs,
       log_init {| ic_self := self; ic_args := args; ic_kwargs := kwargs |}
         (set_types (alter (attach ifs) tp) (count_resolution w)))
  end.
Proof.
  intros H Hlt.
  unfold new, mbind, M_bind, get_world, _prepareInterfaces. rewrite H.
  destruct (prepared JClass_lookup cls intf) as [ifs|e]; [|done].
  unfold setattr_jpype_interfaces, read_jpype_interfaces.
  rewrite getattr_value_attach by done.
  unfold call_init, init_outcome, fresh_instance, lift.
  rewrite tyref_of_attach. simpl.
  by destruct (cls_init _ _ _ _).
Qed.

Lemma type_call_unfold (tp : nat) (args : list pyobj)
    (kwargs : list (string * pyobj)) (w : world) (cls : hostclass)
    (intf : list pyobj) :
  getattr_new w tp = Some (cls, intf) →
  type_call JClass_lookup tp args kwargs w =
  match new JClass_lookup cls intf tp args kwargs w with
  | (Ok self, w1) =>
      if isinstance w1 self tp then
        (init_outcome cls self args kwargs,
         log_init {| ic_self := self; ic_args := args; ic_kwargs := kwargs |} w1)
      else (Ok self, w1)
  | (Raise e, w1) => (Raise e, w1)
  end.
Proof.
  intros H. unfold type_call, mbind, M_bind, get_world. rewrite H.
  destruct (new _ _ _ _ _ _ _) as [[self|e] w1]; [|done].
  destruct (isinstance w1 self tp); [|done].
  unfold call_init, init_outcome. by destruct (cls_init _ _ _ _).
Qed.

Lemma type_call_found (tp : nat) (args : list pyobj)
    (kwargs : list (string * pyobj)) (w : world) (cls : hostclass)
    (intf : list pyobj) (a : attribute) :
  getattr_new w tp = Some (cls, intf) →
  getattr_jpype_interfaces w tp = Some a →
  type_call JClass_lookup tp args kwargs w =
  match interfaces_argument a with
  | Raise e => (Raise e, w)
  | Ok ifs => initialized cls (fresh_instance w tp ifs) args kwargs w
  end.
Proof.
  intros Hnew Hifs. rewrite (type_call_unfold _ _ _ _ _ _ Hnew).
  rewrite (new_found _ _ _ _ _ _ _ Hifs).
  destruct (interfaces_argument a) as [ifs|e]; [|done]. cbn zeta.
  unfold initialized, init_outcome.
  destruct (cls_init _ _ _ _) eqn:Hinit; [done|].
  unfold fresh_instance, tyref_of. rewrite isinstance_self.
  fold (tyref_of w tp). fold (fresh_instance w tp ifs). by rewrite Hinit.
Qed.

Lemma type_call_attached (tp : nat) (args : list pyobj)
    (kwargs : list (string * pyobj)) (w : world) (cls : hostclass)
    (intf : list pyobj) (ifs : list JClass) :
  getattr_new w tp = Some (cls, intf) →
  getattr_jpype_interfaces w tp = Some (Attached ifs) →
  type_call JClass_lookup tp args kwargs w =
  initialized cls (fresh_instance w tp ifs) args kwargs w.
Proof.
  intros Hnew Hifs. rewrite (type_call_unfold _ _ _ _ _ _ Hnew).
  rewrite (new_attached _ _ _ _ _ _ _ Hifs). cbn zeta.
  unfold initialized, init_outcome.
  destruct (cls_init _ _ _ _) eqn:Hinit; [done|].
  unfold fresh_instance, tyref_of. rewrite isinstance_self.
  fold (tyref_of w tp). fold (fresh_instance w tp ifs). by rewrite Hinit.
Qed.

Lemma type_call_unattached (tp : nat) (args : list pyobj)
    (kwargs : list (string * pyobj)) (w : world) (cls : hostclass)
    (intf : list pyobj) :
  getattr_new w tp = Some (cls, intf) →
  getattr_jpype_interfaces w tp = None →
  (tp < length (w_types w))%nat →
  type_call JClass_lookup tp args kwargs w =
  match prepared JClass_lookup cls intf with
  | Raise e => (Raise e, count_resolution w)
  | Ok ifs =>
      initialized cls (fresh_instance w tp ifs) args kwargs
        (set_types (alter (attach ifs) tp) (count_resolution w))
  end.
Proof.
  intros Hnew Hifs Hlt. rewrite (type_call_unfold _ _ _ _ _ _ Hnew).
  rewrite (new_unattached _ _ _ _ _ _ Hifs Hlt).
  destruct (prepared JClass_lookup cls intf) as [ifs|e]; [|done]. cbn zeta.
  unfold initialized, init_outcome.
  destruct (cls_init _ _ _ _) eqn:Hinit; [done|].
  unfold fresh_instance, tyref_of. rewrite isinstance_self.
  fold (tyref_of w tp). fold (fresh_instance w tp ifs). by rewrite Hinit.
Qed.

Lemma prepared_convert_raise (cls : hostclass) (intf : list pyobj) (e : exn) :
  _convertInterfaces JClass_lookup intf = Raise e →
  prepared JClass_lookup cls intf = Raise e.
Proof. unfold prepared. by intros ->. Qed.

Lemma prepared_ok (cls : hostclass) (intf : list pyobj) (ifs : list JClass) :
  prepared JClass_lookup cls intf = Ok ifs ↔
  _convertInterfaces JClass_lookup intf = Ok ifs ∧
  ∃ overrides, _classOverrides cls = Ok overrides ∧
               _checkInterfaceOverrides ifs overrides = Ok tt.
Proof.
  unfold prepared.
  destruct (_convertInterfaces JClass_lookup intf) as [ifs'|e]; simpl.
  - destruct (_classOverrides cls) as [ov|e]; simpl.
    + destruct (_checkInterfaceOverrides ifs' ov) as [[]|e] eqn:Hc; simpl.
      * split.
        -- intros [= <-]. eauto.
        -- by intros [[= <-] _].
      * split; [done|]. intros [[= <-] (ov' & [= <-] & ?)]. congruence.
    + split; [done|]. by intros [_ (? & ? & _)].
  - split; [done|]. by intros [? _].
Qed.

Lemma overridden_lookup (cls : hostclass)
    (overrides : gmap string (pyobj * pyobj)) (name : string) :
  (∀ k v attr, overrides !! k = Some (v, attr) ↔
               cls_dict cls !! k = Some v ∧ getattribute_joverride v = Ok attr) →
  overridden cls name ↔ is_Some (overrides !! name).
Proof.
  intros Hlook. split.
  - intros (v & attr & H). exists (v, attr). by apply Hlook.
  - intros [[v attr] H]. exists v, attr. by apply Hlook.
Qed.

(** What [_prepareInterfaces] gives, step by step. *)
Lemma prepared_spec (cls : hostclass) (intf : list pyobj) :
  (∀ e, _convertInterfaces JClass_lookup intf = Raise e →
        prepared JClass_lookup cls intf = Raise e) ∧
  (∀ ifs, _convertInterfaces JClass_lookup intf = Ok ifs →
     ((∀ i m, i ∈ ifs → m ∈ class_getMethods i → abstract m →
              overridden cls (getName m)) →
      prepared JClass_lookup cls intf = Ok ifs) ∧
     (∀ i m, i ∈ ifs → m ∈ class_getMethods i → abstract m →
             ¬ overridden cls (getName m) →
        ∃ i' m', i' ∈ ifs ∧ m' ∈ class_getMethods i' ∧ abstract m' ∧
                 ¬ overridden cls (getName m') ∧
                 prepared JClass_lookup cls intf
                 = Raise (MissingOverrideError i' m'))).
Proof.
  split; [apply prepared_convert_raise|]. intros ifs Hconv.
  destruct (classOverrides_lookup cls) as (ov & Hov & Hlook).
  pose proof (overridden_lookup cls ov) as Hovr.
  unfold prepared. rewrite Hconv, Hov. simpl. split.
  - intros Hall.
    assert (Hc : _checkInterfaceOverrides ifs ov = Ok tt).
    { apply checkInterfaceOverrides_ok, Forall_forall. intros i Hi.
      apply Forall_forall. intros m Hm Habs. apply Hovr; [done|].
      by apply (Hall i m). }
    by rewrite Hc.
  - intros i m Hi Hm Habs Hmiss.
    destruct (_checkInterfaceOverrides ifs ov) as [[]|e] eqn:Hc.
    + apply checkInterfaceOverrides_ok in Hc. rewrite Forall_forall in Hc.
      specialize (Hc i Hi). rewrite Forall_forall in Hc.
      destruct Hmiss. apply Hovr; [done|]. by apply (Hc m Hm).
    + apply checkInterfaceOverrides_raise in Hc
        as (ipre & i' & ipost & mpre & m' & mpost & -> & Hms & _ & _ &
            Habs' & Hnone & ->).
      exists i', m'. split; [apply elem_of_app; right; apply list_elem_of_here|].
      split; [rewrite Hms; apply elem_of_app; right; apply list_elem_of_here|].
      split; [done|]. split; [|done].
      intros Ho. apply Hovr in Ho as [? Ho]; [|done]. congruence.
Qed.

End proxy_properties.

Lemma getattr_new_lt (w : world) (tp : nat) (cls : hostclass)
    (intf : list pyobj) :
  getattr_new w tp = Some (cls, intf) → (tp < length (w_types w))%nat.
Proof.
  unfold getattr_new, mro. intros H. apply lookup_lt_is_Some.
  destruct (w_types w !! tp) eqn:E; [eauto|]. simpl in H.
  by rewrite E in H.
Qed.

Lemma initialized_frame (cls : hostclass) (self : pyobj) (args : list pyobj)
    (kwargs : list (string * pyobj)) (w : world) :
  w_types (initialized cls self args kwargs w).2 = w_types w ∧
  w_resolutions (initialized cls self args kwargs w).2 = w_resolutions w ∧
  ∀ obj, (initialized cls self args kwargs w).1 = Ok obj → obj = self.
Proof.
  unfold initialized. destruct (cls_init _ _ _ _); simpl; [done|].
  repeat split. by intros obj [= <-].
Qed.



(** ** The class factory *)

Section factory_claims.
Variable JClass_lookup : string → result JClass.
Context {order : SetOrder}.


(** C3: A proxy class created in eager mode (no option, or [deferred]
    false).  The declaration runs resolution, override collection and
    validation.  A failure of the resolution is raised by the declaration;
    when an abstract method of a resolved interface is not overridden in the
    class, the declaration raises the [NotImplementedError] that names the
    interface and the method; whenever the declaration raises, no type is
    added to the store.  When the specification resolves and every abstract
    method of every resolved interface is overridden in the class, the
    declaration returns a new type whose own [__jpype_interfaces__] is the
    resolved set, which has no duplicates and holds exactly the descriptors
    of the flattened items; the member is part of the type from the moment
    it is made.  A declaration returns in no other case. *)
Theorem C3_eager_binding (cls : hostclass) (intf : list pyobj)
    (kwargs : list (string * pyobj)) (w : world) :
  kwargs = [] ∨ kwargs = mode false →
  let t := length (w_types w) in
  (∀ e, _convertInterfaces JClass_lookup intf = Raise e →
        _createJProxy JClass_lookup cls intf kwargs w
        = (Raise e, count_resolution w)) ∧
  (∀ ifs i m,
     _convertInterfaces JClass_lookup intf = Ok ifs →
     i ∈ ifs → m ∈ class_getMethods i → abstract m →
     ¬ overridden cls (getName m) →
     ∃ i' m',
       i' ∈ ifs ∧ m' ∈ class_getMethods i' ∧ abstract m' ∧
       ¬ overridden cls (getName m') ∧
       _createJProxy JClass_lookup cls intf kwargs w
       = (Raise (MissingOverrideError i' m'), count_resolution w)) ∧
  (∀ e w1, _createJProxy JClass_lookup cls intf kwargs w = (Raise e, w1) →
           w_types w1 = w_types w) ∧
  (∀ ifs,
     _convertInterfaces JClass_lookup intf = Ok ifs →
     (∀ i m, i ∈ ifs → m ∈ class_getMethods i → abstract m →
             overridden cls (getName m)) →
     ∃ w1,
       _createJProxy JClass_lookup cls intf kwargs w = (Ok t, w1) ∧
       w_types w1 = w_types w ++ [proxy_type cls intf (Some ifs)] ∧
       w_resolutions w1 = S (w_resolutions w) ∧
       ty_jpype_interfaces <$> w_types w1 !! t = Some (Some ifs) ∧
       getattr_jpype_interfaces w1 t = Some (Attached ifs) ∧
       NoDup ifs ∧
       (∀ c, c ∈ ifs ↔
             ∃ item, item ∈ concat (one_level <$> intf) ∧
                     descriptor_of JClass_lookup item = Ok (PJClass c))) ∧
  (∀ t' w1, _createJProxy JClass_lookup cls intf kwargs w = (Ok t', w1) →
            ∃ ifs,
              _convertInterfaces JClass_lookup intf = Ok ifs ∧
              (∀ i m, i ∈ ifs → m ∈ class_getMethods i → abstract m →
                      overridden cls (getName m)) ∧
              getattr_jpype_interfaces w1 t' = Some (Attached ifs)).
Proof.
  intros Hk t. pose proof (createJProxy_eager JClass_lookup cls intf kwargs w Hk)
    as Hcreate.
  destruct (prepared_spec JClass_lookup cls intf) as [Hpr_raise Hpr].
  split; [|split; [|split; [|split]]].
  - intros e He. by rewrite Hcreate, (Hpr_raise e He).
  - intros ifs i m Hconv Hi Hm Habs Hmiss.
    destruct (proj2 (Hpr ifs Hconv) i m Hi Hm Habs Hmiss)
      as (i' & m' & ? & ? & ? & ? & Hp).
    exists i', m'. repeat (split; [done|]). by rewrite Hcreate, Hp.
  - intros e w1. rewrite Hcreate.
    destruct (prepared JClass_lookup cls intf); [done|]. by intros [= _ <-].
  - intros ifs Hconv Hall.
    pose proof (proj1 (Hpr ifs Hconv) Hall) as Hprep.
    rewrite Hprep in Hcreate. eexists. split; [done|].
    split; [done|]. split; [done|].
    split; [unfold t; simpl; by rewrite list_lookup_middle|].
    split; [by apply (getattr_interfaces_new_type (count_resolution w) cls intf
                        (Some ifs))|].
    destruct (convertInterfaces_ok _ _ _ Hconv) as (_ & Hnd & _ & Hmem & _).
    done.
  - intros t' w1. rewrite Hcreate.
    destruct (prepared JClass_lookup cls intf) as [ifs|e] eqn:Hp; [|done].
    intros [= <- <-]. exists ifs.
    apply prepared_ok in Hp as (Hconv & ov & Hov & Hc).
    split; [done|]. split.
    + intros i m Hi Hm Habs.
      destruct (classOverrides_lookup cls) as (ov' & Hov' & Hlook).
      assert (ov' = ov) as -> by congruence.
      apply (overridden_lookup cls ov); [done|].
      apply checkInterfaceOverrides_ok in Hc. rewrite Forall_forall in Hc.
      specialize (Hc i Hi). rewrite Forall_forall in Hc. by apply (Hc m Hm).
    + by apply (getattr_interfaces_new_type (count_resolution w) cls intf
                  (Some ifs)).
Qed.



(** C10: For a proxy type made by [_createJProxy], the allocation step
    [new] itself calls the class's [__init__] on the instance it has just
    allocated, with the positional and keyword arguments it was given,
    before it returns the instance; the instantiation protocol then calls
    [__init__] on the returned instance again.  Each construction that
    returns an instance has therefore run the initializer twice, with the
    same instance and the same arguments. *)
Theorem C10_initializer_runs_twice (tp : nat) (args : list pyobj)
    (kwargs : list (string * pyobj)) (w w' : world) (self : pyobj) :
  type_call JClass_lookup tp args kwargs w = (Ok self, w') →
  ∃ cls intf w1,
    getattr_new w tp = Some (cls, intf) ∧
    new JClass_lookup cls intf tp args kwargs w = (Ok self, w1) ∧
    let c := {| ic_self := self; ic_args := args; ic_kwargs := kwargs |} in
    w_inits w1 = w_inits w ++ [c] ∧
    w' = log_init c w1 ∧
    w_inits w' = w_inits w ++ [c; c].
Proof.
  intros Hcall.
  destruct (getattr_new w tp) as [[cls intf]|] eqn:Hnew; cycle 1.
  { unfold type_call, mbind, M_bind, get_world in Hcall.
    by rewrite Hnew in Hcall. }
  exists cls, intf.
  pose proof (getattr_new_lt _ _ _ _ Hnew) as Hlt.
  destruct (getattr_jpype_interfaces w tp) as [a|] eqn:Hifs.
  - rewrite (type_call_found _ _ _ _ _ _ _ _ Hnew Hifs) in Hcall.
    rewrite (new_found _ _ _ _ _ _ _ _ Hifs).
    destruct (interfaces_argument a) as [ifs|e]; [|done]. cbn zeta.
    unfold initialized, init_outcome in *.
    destruct (cls_init _ _ _ _); [done|]. injection Hcall as <- <-.
    eexists. split; [done|]. split; [done|]. cbn zeta.
    split; [done|]. split; [done|]. simpl. by rewrite <- app_assoc.
  - rewrite (type_call_unattached _ _ _ _ _ _ _ Hnew Hifs Hlt) in Hcall.
    rewrite (new_unattached _ _ _ _ _ _ _ Hifs Hlt).
    destruct (prepared JClass_lookup cls intf) as [ifs|e]; [|done].
    cbn zeta. unfold initialized, init_outcome in *.
    destruct (cls_init _ _ _ _); [done|]. injection Hcall as <- <-.
    eexists. split; [done|]. split; [done|]. cbn zeta.
    split; [done|]. split; [done|]. simpl. by rewrite <- app_assoc.
Qed.

End factory_claims.

(** ** Resolution, the legacy constructor, the adapter and [unwrap] *)

Lemma dict_get_is_Some (d : list (string * pyobj)) (name : string) :
  is_Some (dict_get d name) ↔ name ∈ d.*1.
Proof.
  induction d as [|[k v] d IH]; simpl.
  - split; [by intros [? ?]|by intros ?%elem_of_nil].
  - rewrite elem_of_cons. destruct (String.eqb_spec k name) as [->|Hne].
    + split; [by left|eauto].
    + rewrite IH. split; [by right|]. intros [?|?]; [congruence|done].
Qed.

Section resolution_claims.
Variable JClass_lookup : string → result JClass.
Context {order : SetOrder}.

(** C5: Interface resolution flattens its input one level.  When it
    returns, every item of the flattened list (a string item and any item
    that is not iterable stand for themselves, an iterable item for its
    elements) is either a string, kept whole, that the class lookup
    resolves to a member of the result, or a descriptor that is itself a
    member of the result; an element of an iterable item that is itself an
    iterable is not flattened and has no place in a result.  The result
    holds exactly these descriptors and holds each of them once. *)
Theorem C5_one_level_flattening (intf : list pyobj) (resolved : list JClass) :
  _convertInterfaces JClass_lookup intf = Ok resolved →
  flatten intf [] = Ok (concat (one_level <$> intf)) ∧
  NoDup resolved ∧
  (∀ c, c ∈ resolved ↔
        ∃ item, item ∈ concat (one_level <$> intf) ∧
                (item = PJClass c ∨
                 ∃ name, item = PStr name ∧ JClass_lookup name = Ok c)) ∧
  (∀ item, item ∈ concat (one_level <$> intf) →
           match item with
           | PStr name => ∃ c, JClass_lookup name = Ok c ∧ c ∈ resolved
           | PJClass c => c ∈ resolved
           | _ => False
           end).
Proof.
  intros H.
  destruct (convertInterfaces_ok _ _ _ H) as (_ & Hnd & _ & Hmem & Hall).
  assert (Hdesc : ∀ item c,
    descriptor_of JClass_lookup item = Ok (PJClass c) ↔
    item = PJClass c ∨ ∃ name, item = PStr name ∧ JClass_lookup name = Ok c).
  { intros item c. destruct item; simpl;
      try (split; [intros [= ->]; by left|by intros [[= ->]|(? & [=] & _)]]);
      try (split; [done|by intros [[=]|(? & [=] & _)]]).
    destruct (JClass_lookup s) as [c'|e] eqn:Hl; simpl.
    - split; [intros [= ->]; right; eauto|].
      intros [[=]|(? & [= <-] & Hl')]. congruence.
    - split; [done|]. intros [[=]|(? & [= <-] & Hl')]. congruence. }
  split; [|split; [done|split]].
  - unfold _convertInterfaces in H.
    destruct (flatten intf []) as [l|e] eqn:Hf; [|done].
    by apply flatten_ok in Hf as ->.
  - intros c. rewrite Hmem. split; intros (item & ? & ?); exists item;
      (split; [done|]); by apply Hdesc.
  - intros item Hitem. destruct (Hall item Hitem) as (c & Hc & Hin).
    apply Hdesc in Hc as [->|(name & -> & ?)]; [done|eauto].
Qed.

(** C7, as the code has it: the legacy constructor resolves the interface
    specification first, and a failure of the resolution is raised as it
    is, whatever the two implementation sources are.  When the
    specification resolves: with both a mapping and an object it raises
    [TypeError] (specify only one); with neither it raises [TypeError] (one
    must be specified); with a mapping alone it hands the allocator a
    [_JFromDict] instance that holds the mapping and answers attribute
    lookups by subscripting it, together with the resolved interfaces and
    the conversion flag it was given; with an object alone it hands over
    the object itself.  The overrides are not validated: these results hold
    for any mapping and any object, whatever methods the interfaces
    declare. *)
Theorem C7_legacy_construction (cls : tyref) (intf dict inst : pyobj)
    (convert : bool) :
  (∀ e, _convertInterfaces JClass_lookup [intf] = Raise e →
        JProxy___new__ JClass_lookup cls intf dict inst convert = Raise e) ∧
  (∀ actualIntf,
     _convertInterfaces JClass_lookup [intf] = Ok actualIntf →
     (dict ≠ PNone → inst ≠ PNone →
        JProxy___new__ JClass_lookup cls intf dict inst convert
        = Raise (TypeError "Specify only one of dict and inst")) ∧
     (dict = PNone → inst = PNone →
        JProxy___new__ JClass_lookup cls intf dict inst convert
        = Raise (TypeError "a dict or inst must be specified")) ∧
     (dict ≠ PNone → inst = PNone →
        JProxy___new__ JClass_lookup cls intf dict inst convert
        = Ok (PProxy Ty_JProxyBase (PFromDict dict) actualIntf convert) ∧
        ∀ name,
          _JFromDict___getattribute__ (PFromDict dict) name
          = match getitem dict name with
            | Ok v => Ok v
            | Raise (KeyError _) => Raise (AttributeError "attribute not found")
            | Raise e => Raise e
            end) ∧
     (dict = PNone → inst ≠ PNone →
        JProxy___new__ JClass_lookup cls intf dict inst convert
        = Ok (PProxy cls inst actualIntf convert))).
Proof.
  split.
  - intros e He. unfold JProxy___new__. by rewrite He.
  - intros actualIntf Ha. unfold JProxy___new__. rewrite Ha. simpl.
    split; [|split; [|split]]; intros Hd Hi.
    + by rewrite !bool_decide_eq_false_2.
    + by rewrite !bool_decide_eq_true_2.
    + rewrite (bool_decide_eq_false_2 _ Hd), (bool_decide_eq_true_2 _ Hi).
      done.
    + rewrite (bool_decide_eq_true_2 _ Hd), (bool_decide_eq_false_2 _ Hi).
      done.
Qed.

End resolution_claims.

(** C9: For a [_JFromDict] that wraps a mapping, the attribute lookup of any
    name gives the mapping's value for that name when the name is one of its
    keys and raises [AttributeError] (attribute not found) otherwise.  This
    holds for every name: the lookup never reaches the attributes of the
    object itself. *)
Theorem C9_adapter_lookup (d : list (string * pyobj)) (name : string) :
  (name ∈ d.*1 →
     ∃ v, dict_get d name = Some v ∧
          _JFromDict___getattribute__ (_JFromDict (PDict d)) name = Ok v) ∧
  (name ∉ d.*1 →
     _JFromDict___getattribute__ (_JFromDict (PDict d)) name
     = Raise (AttributeError "attribute not found")).
Proof.
  simpl. split.
  - intros [v Hv]%dict_get_is_Some. exists v. by rewrite Hv.
  - intros Hn. destruct (dict_get d name) as [v|] eqn:Hv; [|done].
    destruct Hn. apply dict_get_is_Some. eauto.
Qed.


(** ** The claims on the example data *)

(** A method that only a base class overrides does not count: the class
    that declares nothing fails validation. *)
Example inherited_override_not_seen :
  _classOverrides Incomplete = Ok ∅ ∧
  prepared example_lookup (order := insertion_order) Incomplete
    [PStr "java.lang.Runnable"]
  = Raise (NotImplementedError
      "Interface 'java.lang.Runnable' requires method 'run' to be implemented.").
Proof. split; reflexivity. Qed.

(** An iterable inside an iterable is not flattened: resolution fails. *)
Example nested_iterable_rejected :
  _convertInterfaces example_lookup (order := insertion_order)
    [PTuple [PStr "java.lang.Runnable"; PTuple [PStr "java.lang.Runnable"]]]
  = Raise (TypeError "'tuple' is not a Java interface") ∧
  _convertInterfaces example_lookup (order := insertion_order)
    [PList [PStr "java.lang.Runnable"; PList [PStr "java.lang.Runnable"]]]
  = Raise (TypeError "unhashable type: 'list'").
Proof. split; reflexivity. Qed.



Lemma C3_eager_binding_witness :
  (([] : list (string * pyobj)) = [] ∨ [] = mode false) ∧
  (∃ ifs,
     _convertInterfaces example_lookup (order := insertion_order)
       [PStr "java.lang.Runnable"] = Ok ifs ∧
     getattr_jpype_interfaces
       (_createJProxy example_lookup (order := insertion_order) MyImpl
          [PStr "java.lang.Runnable"] [] world0).2 0 = Some (Attached ifs)) ∧
  (∃ i' m',
     i' ∈ [Runnable] ∧
     _createJProxy example_lookup (order := insertion_order) Incomplete
       [PStr "java.lang.Runnable"] [] world0
     = (Raise (MissingOverrideError i' m'), count_resolution world0)).
Proof.
  split; [left; reflexivity|]. split.
  - destruct (C3_eager_binding example_lookup (order := insertion_order)
                MyImpl [PStr "java.lang.Runnable"] [] world0
                (or_introl eq_refl)) as (_ & _ & _ & _ & H).
    destruct (H 0%nat _ eq_refl) as (ifs & H1 & _ & H2).
    exists ifs. split; assumption.
  - destruct (C3_eager_binding example_lookup (order := insertion_order)
                Incomplete [PStr "java.lang.Runnable"] [] world0
                (or_introl eq_refl)) as (_ & H & _).
    destruct (H [Runnable] Runnable run_method eq_refl
                (list_elem_of_here _ _) (list_elem_of_here _ _) eq_refl)
      as (i' & m' & Hi & _ & _ & _ & Hcall).
    { intros (v & attr & Hv & _). simpl in Hv. rewrite lookup_empty in Hv.
      discriminate. }
    exists i', m'. split; assumption.
Defined.



Lemma C5_one_level_flattening_witness :
  _convertInterfaces example_lookup (order := insertion_order)
    [PStr "java.lang.Runnable";
     PTuple [PJClass Runnable; PStr "java.lang.Runnable"]] = Ok [Runnable] ∧
  NoDup [Runnable].
Proof.
  split; [reflexivity|].
  destruct (C5_one_level_flattening example_lookup (order := insertion_order)
              [PStr "java.lang.Runnable";
               PTuple [PJClass Runnable; PStr "java.lang.Runnable"]]
              [Runnable] eq_refl) as (_ & H & _).
  exact H.
Defined.


Lemma C7_legacy_construction_witness :
  _convertInterfaces example_lookup (order := insertion_order)
    [PStr "java.lang.Runnable"] = Ok [Runnable] ∧
  JProxy___new__ example_lookup (order := insertion_order) Ty_JProxy
    (PStr "java.lang.Runnable") (PDict []) PNone true
  = Ok (PProxy Ty_JProxyBase (PFromDict (PDict [])) [Runnable] true) ∧
  _checkInterfaceOverrides [Runnable] (∅ : gmap string pyobj)
  = Raise (NotImplementedError
      "Interface 'java.lang.Runnable' requires method 'run' to be implemented.").
Proof.
  split; [reflexivity|]. split; [|reflexivity].
  destruct (C7_legacy_construction example_lookup (order := insertion_order)
              Ty_JProxy (PStr "java.lang.Runnable") (PDict []) PNone true)
    as [_ H].
  destruct (H [Runnable] eq_refl) as (_ & _ & H3 & _).
  refine (proj1 (H3 _ eq_refl)). discriminate.
Defined.

(** C7 as it is stated fails: with both a mapping and an object, or with
    neither, and a specification that does not resolve, the error is the
    one of the resolution: that of the class lookup for a name it does not
    know, the [TypeError] for a class that is not an interface. *)
Lemma C7_counterexample :
  JProxy___new__ example_lookup (order := insertion_order) Ty_JProxy
    (PStr "no.such.Class") (PDict []) (PObject "Impl" 1) false
  = Raise (JavaError "Class no.such.Class not found") ∧
  JProxy___new__ example_lookup (order := insertion_order) Ty_JProxy
    (PStr "no.such.Class") PNone PNone false
  = Raise (JavaError "Class no.such.Class not found") ∧
  JProxy___new__ example_lookup (order := insertion_order) Ty_JProxy
    (PStr "java.lang.Thread") (PDict []) (PObject "Impl" 1) false
  = Raise (TypeError "'java.lang.Thread' is not a Java interface") ∧
  JProxy___new__ example_lookup (order := insertion_order) Ty_JProxy
    (PStr "java.lang.Thread") (PDict []) (PObject "Impl" 1) false
  ≠ Raise (TypeError "Specify only one of dict and inst") ∧
  JProxy___new__ example_lookup (order := insertion_order) Ty_JProxy
    (PStr "java.lang.Thread") PNone PNone false
  = Raise (TypeError "'java.lang.Thread' is not a Java interface") ∧
  JProxy___new__ example_lookup (order := insertion_order) Ty_JProxy
    (PStr "java.lang.Thread") PNone PNone false
  ≠ Raise (TypeError "a dict or inst must be specified").
Proof. repeat split; try reflexivity; discriminate. Qed.


(** [unwrap] is not total either: for an adapter around a string the
    [isinstance] test raises. *)
Example unwrap_adapter_of_string :
  ∃ msg, unwrap (_JFromDict (PStr "abc")) = Raise (TypeError msg).
Proof. eexists. reflexivity. Qed.


Lemma C9_adapter_lookup_witness :
  _JFromDict___getattribute__ (_JFromDict (PDict [("run", PFunction "run" None)]))
    "dict" = Raise (AttributeError "attribute not found") ∧
  ∃ v, _JFromDict___getattribute__
         (_JFromDict (PDict [("run", PFunction "run" None)])) "run" = Ok v.
Proof.
  destruct (C9_adapter_lookup [("run", PFunction "run" None)] "dict") as [_ H1].
  destruct (C9_adapter_lookup [("run", PFunction "run" None)] "run") as [H2 _].
  split.
  - apply H1. intros H. apply list_elem_of_singleton in H. discriminate.
  - destruct (H2 (list_elem_of_here _ _)) as (v & _ & Hv). exists v. exact Hv.
Defined.

Lemma C10_initializer_runs_twice_witness :
  (type_call example_lookup (order := insertion_order) 0 [PStr "a"] []
     deferred_world).1 = Ok MyImpl_instance ∧
  w_inits (type_call example_lookup (order := insertion_order) 0 [PStr "a"] []
             deferred_world).2
  = [ {| ic_self := MyImpl_instance; ic_args := [PStr "a"]; ic_kwargs := [] |};
      {| ic_self := MyImpl_instance; ic_args := [PStr "a"]; ic_kwargs := [] |} ].
Proof.
  split; [reflexivity|].
  destruct (C10_initializer_runs_twice example_lookup
              (order := insertion_order) 0 [PStr "a"] [] deferred_world
              (type_call example_lookup (order := insertion_order) 0
                 [PStr "a"] [] deferred_world).2
              MyImpl_instance eq_refl)
    as (cls & intf & w1 & _ & _ & _ & _ & H).
  exact H.
Defined.

(** A subclass that declares nothing shares the set attached to its base:
    after an instance of the base is made, making an instance of the
    subclass runs no resolution and attaches nothing to the subclass. *)
Example subclass_shares_cache :
  let L := example_lookup in
  let w1 := (subclass "Sub" 0 deferred_world).2 in
  let w2 := (type_call L (order := insertion_order) 0 [] [] w1).2 in
  let w3 := (type_call L (order := insertion_order) 1 [] [] w2).2 in
  w_resolutions w2 = 1%nat ∧ w_resolutions w3 = 1%nat ∧
  ty_jpype_interfaces <$> w_types w3 !! 1%nat = Some None ∧
  getattr_jpype_interfaces w3 1 = Some (Attached [Runnable]).
Proof. vm_compute. repeat split. Qed.

(** Made first, the instance of the subclass attaches the set to the
    subclass only, and the base resolves again for its own first instance. *)
Example subclass_first :
  let L := example_lookup in
  let w1 := (subclass "Sub" 0 deferred_world).2 in
  let w2 := (type_call L (order := insertion_order) 1 [] [] w1).2 in
  let w3 := (type_call L (order := insertion_order) 0 [] [] w2).2 in
  w_resolutions w2 = 1%nat ∧
  ty_jpype_interfaces <$> w_types w2 !! 0%nat = Some None ∧
  w_resolutions w3 = 2%nat.
Proof. vm_compute. repeat split. Qed.

(** * Further properties *)

(** ** Keyword options of the class factory *)

Section factory_options.
Variable JClass_lookup : string → result JClass.
Context {order : SetOrder}.

(** A keyword other than [deferred] makes the decorator raise [TypeError]
    before anything else is done: nothing is resolved, no type is made and
    no initializer runs, whatever the interfaces and the value of
    [deferred].  Unless one of the keywords is [cls], which the call of
    [_createJProxy] itself refuses, the message lists the keywords other
    than [deferred] in the order given. *)
Theorem JImplements_invalid_keywords (interfaces : list pyobj)
    (kwargs : list (string * pyobj)) (cls : hostclass) (w : world)
    (k : string) :
  k ∈ (kwargs.*1) → k ≠ "deferred" →
  ∃ msg,
    JImplements JClass_lookup interfaces kwargs cls w
    = (Raise (TypeError msg), w) ∧
    (("cls" ∉ (kwargs.*1)) →
     ∃ keys,
       keys = filter (λ k', k' ≠ "deferred") (kwargs.*1) ∧
       k ∈ keys ∧ ("deferred" ∉ keys) ∧ ("cls" ∉ keys) ∧
       msg = "Invalid keywords: " +:+ String.concat "," keys).
Proof.
  intros Hk Hne.
  assert (Hf : (filter (λ kv : string * pyobj, kv.1 ≠ "deferred") kwargs).*1
               = filter (λ k', k' ≠ "deferred") (kwargs.*1)).
  { clear. induction kwargs as [|[k v] l IH]; [done|].
    rewrite fmap_cons, !filter_cons. cbn [fst].
    destruct (decide (k ≠ "deferred")); [rewrite fmap_cons|]; by rewrite IH. }
  unfold JImplements. case_bool_decide as Hcls.
  { eexists. split; [reflexivity|]. by intros []. }
  unfold _createJProxy. cbn zeta. case_bool_decide as Hnil.
  { rewrite Hnil in Hf. simpl in Hf.
    assert (Hin : k ∈ filter (λ k', k' ≠ "deferred") (kwargs.*1))
      by by apply list_elem_of_filter.
    rewrite <- Hf in Hin. by apply elem_of_nil in Hin. }
  simpl. rewrite Hf. eexists. split; [reflexivity|]. intros _.
  exists (filter (λ k', k' ≠ "deferred") (kwargs.*1)).
  split; [done|]. split; [by apply list_elem_of_filter|].
  split; [intros [? _]%list_elem_of_filter; done|].
  split; [intros [_ ?]%list_elem_of_filter; done|done].
Qed.

(** The option [deferred] is read by its truth value, and leaving it out is
    the same as giving it false. *)
Theorem createJProxy_deferred_by_truth (cls : hostclass) (intf : list pyobj)
    (v : pyobj) (w : world) :
  _createJProxy JClass_lookup cls intf [("deferred", v)] w
  = _createJProxy JClass_lookup cls intf (mode (truthy v)) w ∧
  _createJProxy JClass_lookup cls intf [] w
  = _createJProxy JClass_lookup cls intf (mode false) w.
Proof.
  split; [|reflexivity].
  unfold _createJProxy, mode. cbn zeta.
  change (dict_get [("deferred", v)] "deferred") with (Some v).
  change (dict_get [("deferred", PBool (truthy v))] "deferred")
    with (Some (PBool (truthy v))).
  reflexivity.
Qed.

(** A declaration never runs an initializer.  When it raises, the type store
    is as before; when it returns, it returns the index of one new type at
    the end of the store, named after the class, whose [__new__] holds the
    class and the interface specification, and no other type is changed. *)
Theorem createJProxy_frame (cls : hostclass) (intf : list pyobj)
    (kwargs : list (string * pyobj)) (w : world) :
  let r := _createJProxy JClass_lookup cls intf kwargs w in
  w_inits r.2 = w_inits w ∧
  match r.1 with
  | Raise _ => w_types r.2 = w_types w
  | Ok t =>
      t = length (w_types w) ∧
      ∃ interfaces,
        w_types r.2 = w_types w ++ [proxy_type cls intf interfaces] ∧
        ty_name (proxy_type cls intf interfaces) = "proxy." +:+ cls_name cls ∧
        getattr_new r.2 t = Some (cls, intf)
  end.
Proof.
  unfold _createJProxy. cbn zeta. case_bool_decide as Hnil; cycle 1.
  { simpl. done. }
  simpl.
  destruct (truthy (default (PBool false) (dict_get kwargs "deferred"))); simpl.
  - split; [done|]. split; [done|]. exists None. split; [done|].
    split; [done|]. apply getattr_new_new_type.
  - unfold mbind, M_bind, _prepareInterfaces.
    destruct (prepared JClass_lookup cls intf) as [ifs|e]; simpl; [|done].
    split; [done|]. split; [done|]. exists (Some ifs). split; [done|].
    split; [done|]. apply (getattr_new_new_type (count_resolution w)).
Qed.

End factory_options.

(** ** When resolution succeeds *)

Lemma check_interfaces_total (l : list pyobj) :
  Forall (λ x, ∃ c, x = PJClass c ∧ is_JInterface c = true) l →
  ∃ cs, check_interfaces l = Ok cs.
Proof.
  induction 1 as [|x l (c & -> & Hc) _ (cs & IH)]; simpl; [eauto|].
  rewrite Hc, IH. simpl. eauto.
Qed.

Section resolution_success.
Variable JClass_lookup : string → result JClass.
Context {order : SetOrder}.

Lemma lookup_classes_app (l1 l2 s : list pyobj) :
  lookup_classes JClass_lookup (l1 ++ l2) s
  = lookup_classes JClass_lookup l1 s ≫= lookup_classes JClass_lookup l2.
Proof.
  revert s. induction l1 as [|item l1 IH]; intros s; simpl; [done|].
  change (match item with
          | PStr name => PJClass <$> JClass_lookup name
          | _ => Ok item
          end) with (descriptor_of JClass_lookup item).
  destruct (descriptor_of JClass_lookup item) as [x|e]; simpl; [|done].
  destruct (set_add x s) as [s1|e]; simpl; [|done]. apply IH.
Qed.

Lemma flatten_no_iterable_class (intf acc r : list pyobj) :
  flatten intf acc = Ok r → no_iterable_class intf.
Proof.
  revert acc. induction intf as [|item rest IH]; intros acc; simpl;
    [constructor|].
  destruct (is_str item) eqn:Hstr.
  - intros H%IH. constructor; [|done]. by intros c ->.
  - destruct (has_iter item) as [[]|e] eqn:Hiter; simpl; [| |done].
    + destruct (iter_items item) as [items|e] eqn:Hitems; simpl; [|done].
      intros H%IH. constructor; [|done]. by intros c ->.
    + intros H%IH. constructor; [|done]. intros c ->. simpl in Hiter.
      by injection Hiter.
Qed.

Lemma flatten_acceptable (intf acc : list pyobj) :
  no_iterable_class intf →
  Forall (acceptable JClass_lookup) (concat (one_level <$> intf)) →
  flatten intf acc = Ok (acc ++ concat (one_level <$> intf)).
Proof.
  revert acc. induction intf as [|item rest IH]; intros acc; simpl.
  - intros _ _. by rewrite app_nil_r.
  - intros [Hc Hno]%Forall_cons [Hitem Hrest]%Forall_app.
    destruct item as [| | | | |c| | | | |]; simpl in *;
      try (rewrite (IH _ Hno Hrest); by rewrite <- ?app_assoc).
    + rewrite (Hc c eq_refl). simpl.
      rewrite (IH _ Hno Hrest); by rewrite <- ?app_assoc.
    + apply Forall_cons in Hitem as [(c & [=] & _) _].
Qed.

Lemma lookup_classes_acceptable (l s : list pyobj) :
  Forall (acceptable JClass_lookup) l →
  Forall (λ x, ∃ c, x = PJClass c ∧ is_JInterface c = true) s →
  ∃ s', lookup_classes JClass_lookup l s = Ok s' ∧
        Forall (λ x, ∃ c, x = PJClass c ∧ is_JInterface c = true) s' ∧
        (l ≠ [] ∨ s ≠ [] → s' ≠ []).
Proof.
  intros Hl. revert s. induction Hl as [|item l (c & Hc & Hi) _ IH];
    intros s Hs; simpl.
  - exists s. split; [done|]. split; [done|]. by intros [?|?].
  - change (match item with
            | PStr name => PJClass <$> JClass_lookup name
            | _ => Ok item
            end) with (descriptor_of JClass_lookup item).
    rewrite Hc. simpl. unfold set_add. simpl.
    destruct (IH (if decide (PJClass c ∈ s) then s else s ++ [PJClass c]))
      as (s' & Hs' & HF & Hne).
    { destruct (decide (PJClass c ∈ s)); [done|]. apply Forall_app.
      split; [done|]. constructor; [eauto|constructor]. }
    exists s'. split; [done|]. split; [done|]. intros _. apply Hne. right.
    destruct (decide (PJClass c ∈ s)) as [Hin|_].
    + intros ->. by apply elem_of_nil in Hin.
    + by destruct s.
Qed.

Lemma convertInterfaces_ok_acceptable (intf : list pyobj)
    (resolved : list JClass) :
  _convertInterfaces JClass_lookup intf = Ok resolved →
  no_iterable_class intf ∧
  concat (one_level <$> intf) ≠ [] ∧
  Forall (acceptable JClass_lookup) (concat (one_level <$> intf)).
Proof.
  intros H.
  destruct (convertInterfaces_ok _ _ _ H) as (Hne & _ & HF & Hmem & Hall).
  split; [|split].
  - unfold _convertInterfaces in H.
    destruct (flatten intf []) as [l|e] eqn:Hflat; [|done].
    by eapply flatten_no_iterable_class.
  - intros Hnil. destruct resolved as [|c r]; [done|].
    destruct (proj1 (Hmem c) (list_elem_of_here _ _)) as (item & Hitem & _).
    rewrite Hnil in Hitem. by apply elem_of_nil in Hitem.
  - apply Forall_forall. intros item Hitem.
    destruct (Hall item Hitem) as (c & Hc & Hin). exists c.
    split; [done|]. rewrite Forall_forall in HF. by apply HF.
Qed.

Lemma convertInterfaces_acceptable_ok (intf : list pyobj) :
  no_iterable_class intf →
  concat (one_level <$> intf) ≠ [] →
  Forall (acceptable JClass_lookup) (concat (one_level <$> intf)) →
  ∃ resolved, _convertInterfaces JClass_lookup intf = Ok resolved.
Proof.
  intros Hno Hne HF. unfold _convertInterfaces.
  rewrite (flatten_acceptable intf [] Hno HF). simpl.
  destruct (lookup_classes_acceptable _ [] HF (Forall_nil_2 _))
    as (s & -> & Hs & Hsne). simpl.
  case_bool_decide as Hnil; [by destruct Hsne; auto|].
  apply check_interfaces_total. by rewrite set_iter_perm.
Qed.

(** Resolution returns exactly when no wrapped Java class that has
    [__iter__] is given directly as an item, the flattened specification is
    not empty, and each of its items is a string that the class lookup
    resolves to an interface or a wrapped Java class that is an interface. *)
Theorem convertInterfaces_succeeds_iff (intf : list pyobj) :
  (∃ resolved, _convertInterfaces JClass_lookup intf = Ok resolved) ↔
  no_iterable_class intf ∧
  concat (one_level <$> intf) ≠ [] ∧
  Forall (acceptable JClass_lookup) (concat (one_level <$> intf)).
Proof.
  split.
  - intros [resolved H]. by eapply convertInterfaces_ok_acceptable.
  - intros (Hno & Hne & HF). by apply convertInterfaces_acceptable_ok.
Qed.

(** How the interfaces are grouped, ordered and repeated in the
    specification does not matter, as long as no wrapped Java class that has
    [__iter__] is given directly as an item: two such specifications whose
    flattened lists have the same items resolve alike, to the same
    interfaces up to order. *)
Theorem convertInterfaces_regrouping (intf1 intf2 : list pyobj)
    (resolved1 : list JClass) :
  no_iterable_class intf2 →
  (∀ item, item ∈ concat (one_level <$> intf1) ↔
           item ∈ concat (one_level <$> intf2)) →
  _convertInterfaces JClass_lookup intf1 = Ok resolved1 →
  ∃ resolved2,
    _convertInterfaces JClass_lookup intf2 = Ok resolved2 ∧
    resolved1 ≡ₚ resolved2.
Proof.
  intros Hno Hsame H1.
  destruct (convertInterfaces_ok_acceptable _ _ H1) as (_ & Hne1 & HF1).
  destruct (convertInterfaces_acceptable_ok intf2 Hno) as [resolved2 H2].
  { intros Hnil. destruct (concat (one_level <$> intf1)) as [|x l] eqn:E;
      [done|].
    assert (Hx : x ∈ concat (one_level <$> intf2))
      by (apply Hsame; apply list_elem_of_here).
    rewrite Hnil in Hx. by apply elem_of_nil in Hx. }
  { apply Forall_forall. intros item Hitem%Hsame.
    rewrite Forall_forall in HF1. by apply HF1. }
  exists resolved2. split; [done|].
  destruct (convertInterfaces_ok _ _ _ H1) as (_ & Hnd1 & _ & Hmem1 & _).
  destruct (convertInterfaces_ok _ _ _ H2) as (_ & Hnd2 & _ & Hmem2 & _).
  apply NoDup_Permutation; [done|done|]. intros c.
  rewrite Hmem1, Hmem2. split; intros (item & Hitem & Hd); exists item;
    (split; [by apply Hsame|done]).
Qed.

(** The failure of the class lookup for a name is the failure of the
    resolution: when the items before the name resolve and can be put in the
    set, whatever they are, the exception the lookup raises for the name is
    raised unchanged, before the set is checked for emptiness or for
    anything that is not an interface. *)
Theorem convertInterfaces_lookup_failure (intf pre post s : list pyobj)
    (name : string) (e : exn) :
  flatten intf [] = Ok (pre ++ PStr name :: post) →
  lookup_classes JClass_lookup pre [] = Ok s →
  JClass_lookup name = Raise e →
  _convertInterfaces JClass_lookup intf = Raise e.
Proof.
  intros Hflat Hpre Hname. unfold _convertInterfaces. rewrite Hflat. simpl.
  rewrite lookup_classes_app, Hpre. simpl. by rewrite Hname.
Qed.

End resolution_success.

(** ** Validation and the legacy constructor *)

(** Validation can only be helped by more overrides and fewer interfaces:
    when it passes for some overrides and interfaces, it passes for any
    overrides that have at least the same names and any interfaces taken
    among the same ones. *)
Theorem checkInterfaceOverrides_monotone {V W : Type}
    (interfaces interfaces' : list JClass)
    (overrides : gmap string V) (overrides' : gmap string W) :
  _checkInterfaceOverrides interfaces overrides = Ok tt →
  dom overrides ⊆ dom overrides' →
  interfaces' ⊆ interfaces →
  _checkInterfaceOverrides interfaces' overrides' = Ok tt.
Proof.
  rewrite !checkInterfaceOverrides_ok, !Forall_forall.
  intros H Hdom Hsub i Hi. specialize (H i (Hsub i Hi)).
  rewrite Forall_forall in *. intros m Hm Habs.
  apply elem_of_dom, Hdom, elem_of_dom. by apply H.
Qed.

Section legacy_properties.
Variable JClass_lookup : string → result JClass.
Context {order : SetOrder}.

(** The legacy constructor returns a proxy exactly when the interface
    specification resolves and exactly one of the mapping and the object is
    given; a failure of the resolution is raised as it is, whatever the
    mapping and the object are. *)
Theorem JProxy_returns_iff (cls : tyref) (intf dict inst : pyobj)
    (convert : bool) :
  ((∃ p, JProxy___new__ JClass_lookup cls intf dict inst convert = Ok p) ↔
   (∃ actualIntf, _convertInterfaces JClass_lookup [intf] = Ok actualIntf) ∧
   (dict = PNone ↔ inst ≠ PNone)) ∧
  (∀ e, _convertInterfaces JClass_lookup [intf] = Raise e →
        JProxy___new__ JClass_lookup cls intf dict inst convert = Raise e).
Proof.
  unfold JProxy___new__.
  destruct (_convertInterfaces JClass_lookup [intf]) as [a|e]; simpl.
  - split; [|intros e' [=]].
    destruct (decide (dict = PNone)) as [Hd|Hd],
             (decide (inst = PNone)) as [Hi|Hi].
    + rewrite !bool_decide_eq_true_2 by done. simpl.
      split; [intros [? [=]]|]. intros [_ [Hx _]]. by destruct (Hx Hd).
    + rewrite (bool_decide_eq_true_2 _ Hd), (bool_decide_eq_false_2 _ Hi).
      simpl. split; [|eauto]. intros _. split; [eauto|done].
    + rewrite (bool_decide_eq_false_2 _ Hd), (bool_decide_eq_true_2 _ Hi).
      simpl. split; [|eauto]. intros _. split; [eauto|].
      split; [done|]. intros HH. by destruct HH.
    + rewrite !bool_decide_eq_false_2 by done. simpl.
      split; [intros [? [=]]|]. intros [_ [_ Hx]]. destruct Hd. by apply Hx.
  - split; [|by intros ? [= ->]]. split; [intros [? [=]]|].
    intros [[? [=]] _].
Qed.

(** A proxy made from a mapping answers by the mapping: the delegate the
    allocator receives gives, for every name, the mapping's value for the
    name, and raises [AttributeError] for a name the mapping lacks. *)
Theorem JProxy_mapping_dispatch (cls : tyref) (intf : pyobj)
    (d : list (string * pyobj)) (convert : bool) (actualIntf : list JClass)
    (name : string) :
  _convertInterfaces JClass_lookup [intf] = Ok actualIntf →
  ∃ delegate,
    JProxy___new__ JClass_lookup cls intf (PDict d) PNone convert
    = Ok (PProxy Ty_JProxyBase delegate actualIntf convert) ∧
    _JFromDict___getattribute__ delegate name
    = match dict_get d name with
      | Some f => Ok f
      | None => Raise (AttributeError "attribute not found")
      end.
Proof.
  intros H. exists (_JFromDict (PDict d)). unfold JProxy___new__.
  rewrite H. simpl. split; [done|]. by destruct (dict_get d name).
Qed.

(** Unwrapping a proxy made from an object gives the object back, and
    unwrapping a proxy made from a mapping gives the adapter that wraps the
    mapping. *)
Theorem unwrap_JProxy (cls : tyref) (intf dict inst : pyobj) (convert : bool)
    (p : pyobj) :
  JProxy___new__ JClass_lookup cls intf dict inst convert = Ok p →
  (dict = PNone → unwrap p = Ok inst) ∧
  (dict ≠ PNone → unwrap p = Ok (_JFromDict dict)).
Proof.
  unfold JProxy___new__.
  destruct (_convertInterfaces JClass_lookup [intf]) as [a|e]; simpl; [|done].
  destruct (decide (dict = PNone)) as [Hd|Hd],
           (decide (inst = PNone)) as [Hi|Hi].
  - rewrite !bool_decide_eq_true_2 by done. done.
  - rewrite (bool_decide_eq_true_2 _ Hd), (bool_decide_eq_false_2 _ Hi).
    simpl. intros [= <-]. split; [|done]. intros _. unfold unwrap. simpl.
    by destruct inst.
  - rewrite (bool_decide_eq_false_2 _ Hd), (bool_decide_eq_true_2 _ Hi).
    simpl. intros [= <-]. split; [done|]. intros _. reflexivity.
  - rewrite !bool_decide_eq_false_2 by done. done.
Qed.

End legacy_properties.

(** ** Instantiation and the type store *)

Lemma mro_find_Some {A} (f : pytype → option A) (types : list pytype)
    (ts : list nat) (a : A) :
  mro_find f types ts = Some a →
  ∃ t ty, t ∈ ts ∧ types !! t = Some ty ∧ f ty = Some a.
Proof.
  induction ts as [|t rest IH]; simpl; [done|].
  destruct (types !! t) as [ty|] eqn:Ht; simpl.
  - destruct (f ty) as [a'|] eqn:Hf.
    + intros [= <-]. exists t, ty. split; [apply list_elem_of_here|done].
    + intros (t' & ty' & ? & ?)%IH. exists t', ty'.
      split; [by apply list_elem_of_further|done].
  - intros (t' & ty' & ? & ?)%IH. exists t', ty'.
    split; [by apply list_elem_of_further|done].
Qed.

Lemma getattr_own_interfaces (w : world) (tp : nat) (ty : pytype)
    (ifs : list JClass) :
  w_types w !! tp = Some ty → ty_jpype_interfaces ty = Some ifs →
  getattr_jpype_interfaces w tp = Some (Attached ifs).
Proof.
  intros Hty Hifs. apply getattr_store_found. unfold mro. rewrite Hty. simpl.
  by rewrite Hty; simpl; rewrite Hifs.
Qed.

Section instantiation_properties.
Variable JClass_lookup : string → result JClass.
Context {order : SetOrder}.

Lemma prepared_good (cls : hostclass) (intf : list pyobj) (ifs : list JClass) :
  prepared JClass_lookup cls intf = Ok ifs → good_interfaces ifs.
Proof.
  intros [H _]%prepared_ok.
  destruct (convertInterfaces_ok _ _ _ H) as (? & ? & ? & _). done.
Qed.

(** The states an instantiation can end in. *)
Lemma type_call_cases (tp : nat) (args : list pyobj)
    (kwargs : list (string * pyobj)) (w : world) :
  (getattr_new w tp = None ∧
   (type_call JClass_lookup tp args kwargs w).2 = w ∧
   ∃ e, (type_call JClass_lookup tp args kwargs w).1 = Raise e) ∨
  (∃ cls intf a e,
     getattr_new w tp = Some (cls, intf) ∧
     getattr_jpype_interfaces w tp = Some a ∧
     interfaces_argument a = Raise e ∧
     type_call JClass_lookup tp args kwargs w = (Raise e, w)) ∨
  (∃ cls intf a ifs,
     getattr_new w tp = Some (cls, intf) ∧
     getattr_jpype_interfaces w tp = Some a ∧
     interfaces_argument a = Ok ifs ∧
     type_call JClass_lookup tp args kwargs w
     = initialized cls (fresh_instance w tp ifs) args kwargs w) ∨
  (∃ cls intf,
     getattr_new w tp = Some (cls, intf) ∧
     getattr_jpype_interfaces w tp = None ∧
     (tp < length (w_types w))%nat ∧
     match prepared JClass_lookup cls intf with
     | Raise e =>
         type_call JClass_lookup tp args kwargs w = (Raise e, count_resolution w)
     | Ok ifs =>
         type_call JClass_lookup tp args kwargs w
         = initialized cls (fresh_instance w tp ifs) args kwargs
             (set_types (alter (attach ifs) tp) (count_resolution w))
     end).
Proof.
  destruct (getattr_new w tp) as [[cls intf]|] eqn:Hnew.
  - right. destruct (getattr_jpype_interfaces w tp) as [a|] eqn:Hifs.
    + pose proof (type_call_found JClass_lookup tp args kwargs w cls intf a
                    Hnew Hifs) as Hcall.
      destruct (interfaces_argument a) as [ifs|e] eqn:Harg.
      * right. left. by exists cls, intf, a, ifs.
      * left. by exists cls, intf, a, e.
    + right. right. exists cls, intf. split; [done|]. split; [done|].
      pose proof (getattr_new_lt _ _ _ _ Hnew) as Hlt. split; [done|].
      rewrite (type_call_unattached _ _ _ _ _ _ _ Hnew Hifs Hlt).
      by destruct (prepared JClass_lookup cls intf).
  - left. split; [done|].
    unfold type_call, mbind, M_bind, get_world. rewrite Hnew. simpl. eauto.
Qed.

(** An instantiation changes at most one thing in the type store: the
    [__jpype_interfaces__] of the type that is instantiated, and only when
    that type has none of its own.  The store keeps its size, every other
    type is as before, the type keeps its name, its ancestors and its
    [__new__], and at most one resolution is run. *)
Theorem type_call_frame (tp : nat) (args : list pyobj)
    (kwargs : list (string * pyobj)) (w : world) :
  let w' := (type_call JClass_lookup tp args kwargs w).2 in
  length (w_types w') = length (w_types w) ∧
  (∀ t, t ≠ tp → w_types w' !! t = w_types w !! t) ∧
  (∀ ty, w_types w !! tp = Some ty →
     ∃ ty', w_types w' !! tp = Some ty' ∧
            ty_name ty' = ty_name ty ∧ ty_mro ty' = ty_mro ty ∧
            ty_new ty' = ty_new ty ∧
            (is_Some (ty_jpype_interfaces ty) → ty' = ty)) ∧
  (w_resolutions w ≤ w_resolutions w' ≤ S (w_resolutions w))%nat.
Proof.
  intros w'. subst w'.
  assert (Hsame : ∀ w1, w_types w1 = w_types w →
            (w_resolutions w ≤ w_resolutions w1 ≤ S (w_resolutions w))%nat →
            length (w_types w1) = length (w_types w) ∧
            (∀ t, t ≠ tp → w_types w1 !! t = w_types w !! t) ∧
            (∀ ty, w_types w !! tp = Some ty →
               ∃ ty', w_types w1 !! tp = Some ty' ∧
                      ty_name ty' = ty_name ty ∧ ty_mro ty' = ty_mro ty ∧
                      ty_new ty' = ty_new ty ∧
                      (is_Some (ty_jpype_interfaces ty) → ty' = ty)) ∧
            (w_resolutions w ≤ w_resolutions w1 ≤ S (w_resolutions w))%nat).
  { intros w1 Hty Hres. rewrite Hty. split; [done|]. split; [done|].
    split; [|done]. intros ty Hlook. exists ty. by repeat split. }
  destruct (type_call_cases tp args kwargs w)
    as [(_ & -> & _)|[(cls & intf & a & e & _ & _ & _ & ->)|
                      [(cls & intf & a & ifs & _ & _ & _ & ->)|
                       (cls & intf & _ & Hnone & Hlt & H)]]].
  - apply Hsame; [done|lia].
  - apply Hsame; [done|simpl; lia].
  - destruct (initialized_frame cls (fresh_instance w tp ifs) args kwargs w)
      as (Hty & Hres & _).
    apply Hsame; [done|]. rewrite Hres. lia.
  - destruct (prepared JClass_lookup cls intf) as [ifs|e]; rewrite H.
    + destruct (initialized_frame cls (fresh_instance w tp ifs) args kwargs
                  (set_types (alter (attach ifs) tp) (count_resolution w)))
        as (Hty & Hres & _).
      rewrite Hty, Hres. simpl. split; [by rewrite length_alter|].
      split; [intros t Hne; by rewrite list_lookup_alter_ne|].
      split; [|lia]. intros ty Hlook. rewrite list_lookup_alter_eq, Hlook.
      simpl. eexists. split; [done|]. repeat split; try done.
      intros [ifs' Hifs'].
      by rewrite (getattr_own_interfaces _ _ _ _ Hlook Hifs') in Hnone.
    + simpl. apply (Hsame (count_resolution w)); [done|simpl; lia].
Qed.

(** Every interface set the module makes is a good one.  When each set
    attached to a type is non-empty, duplicate-free and made of interfaces,
    this is still so after a declaration and after an instantiation; the
    instance an instantiation returns was allocated with such a set, unless
    the lookup of [__jpype_interfaces__] on the type finds a value of the
    host class or of one of its bases; and the proxy the legacy constructor
    returns was allocated with such a set. *)
Theorem world_good_preserved (w : world) :
  world_good w →
  (∀ cls intf kwargs,
     world_good (_createJProxy JClass_lookup cls intf kwargs w).2) ∧
  (∀ tp args kwargs,
     world_good (type_call JClass_lookup tp args kwargs w).2 ∧
     ((∀ v, getattr_jpype_interfaces w tp ≠ Some (Inherited v)) →
      ∀ self, (type_call JClass_lookup tp args kwargs w).1 = Ok self →
              ∃ ifs, proxy_interfaces self = Some ifs ∧ good_interfaces ifs)) ∧
  (∀ cls intf dict inst convert p,
     JProxy___new__ JClass_lookup cls intf dict inst convert = Ok p →
     ∃ ifs, proxy_interfaces p = Some ifs ∧ good_interfaces ifs).
Proof.
  intros Hw. split; [|split].
  - intros cls intf kwargs. unfold _createJProxy. cbn zeta.
    case_bool_decide; [|done]. simpl. destruct (truthy _); simpl.
    + apply Forall_app. split; [done|]. constructor; [|constructor]. done.
    + unfold mbind, M_bind, _prepareInterfaces.
      destruct (prepared JClass_lookup cls intf) as [ifs|e] eqn:Hp; simpl;
        [|done].
      apply Forall_app. split; [done|]. constructor; [|constructor].
      simpl. intros ifs' [= <-]. by apply prepared_good in Hp.
  - intros tp args kwargs.
    assert (Hget : ∀ ifs, getattr_jpype_interfaces w tp = Some (Attached ifs) →
                          good_interfaces ifs).
    { intros ifs Hifs. apply getattr_Some_value in Hifs.
      unfold getattr_value in Hifs.
      destruct (mro_find ty_jpype_interfaces (w_types w) (mro (w_types w) tp))
        as [ifs'|] eqn:Hfind.
      - injection Hifs as ->.
        apply mro_find_Some in Hfind as (t & ty & _ & Hty & Hifs).
        unfold world_good in Hw. rewrite Forall_forall in Hw.
        apply (Hw ty); [|done]. by apply list_elem_of_lookup_2 in Hty.
      - destruct (getattr_new w tp) as [[cls ?]|]; [|done].
        by destruct (host_getattr cls "__jpype_interfaces__"). }
    destruct (type_call_cases tp args kwargs w)
      as [(_ & -> & e & ->)|[(cls & intf & a & e & _ & _ & _ & ->)|
                             [(cls & intf & a & ifs & _ & Hifs & Harg & ->)|
                              (cls & intf & _ & Hnone & Hlt & H)]]].
    + split; [done|]. by intros _ self.
    + split; [done|]. by intros _ self.
    + destruct (initialized_frame cls (fresh_instance w tp ifs) args kwargs w)
        as (Hty & _ & Hself).
      split; [unfold world_good; by rewrite Hty|].
      intros Hown self ->%Hself. exists ifs. split; [done|].
      destruct a as [ifs'|v]; [|by destruct (Hown v)].
      injection Harg as <-. by apply Hget.
    + destruct (prepared JClass_lookup cls intf) as [ifs|e] eqn:Hp; rewrite H.
      * destruct (initialized_frame cls (fresh_instance w tp ifs) args kwargs
                    (set_types (alter (attach ifs) tp) (count_resolution w)))
          as (Hty & _ & Hself).
        apply prepared_good in Hp. split.
        -- unfold world_good. rewrite Hty. simpl.
           apply Forall_alter; [done|]. intros ty _ _ ifs' [= <-]. done.
        -- intros _ self ->%Hself. exists ifs. done.
      * split; [done|]. by intros _ self.
  - intros cls intf dict inst convert p. unfold JProxy___new__.
    destruct (_convertInterfaces JClass_lookup [intf]) as [a|e] eqn:Hc;
      simpl; [|done].
    destruct (convertInterfaces_ok _ _ _ Hc) as (? & ? & ? & _).
    repeat case_match; try done; intros [= <-]; exists a; done.
Qed.

(** When [__init__] raises during the instantiation that resolves the
    interfaces, the resolved set stays attached to the type: the exception
    is raised after one call of [__init__], and the next instantiation of
    the type runs no resolution. *)
Theorem init_failure_keeps_interfaces (cls : hostclass) (intf : list pyobj)
    (tp : nat) (args args' : list pyobj) (kwargs kwargs' : list (string * pyobj))
    (w : world) (ifs : list JClass) (e : exn) :
  getattr_new w tp = Some (cls, intf) →
  getattr_jpype_interfaces w tp = None →
  prepared JClass_lookup cls intf = Ok ifs →
  cls_init cls (fresh_instance w tp ifs) args kwargs = Some e →
  ∃ w',
    type_call JClass_lookup tp args kwargs w = (Raise e, w') ∧
    getattr_jpype_interfaces w' tp = Some (Attached ifs) ∧
    w_inits w' = w_inits w ++ [{| ic_self := fresh_instance w tp ifs;
                                  ic_args := args; ic_kwargs := kwargs |}] ∧
    w_resolutions w' = S (w_resolutions w) ∧
    w_resolutions (type_call JClass_lookup tp args' kwargs' w').2
    = S (w_resolutions w).
Proof.
  intros Hnew Hnone Hp Hinit.
  pose proof (getattr_new_lt _ _ _ _ Hnew) as Hlt.
  rewrite (type_call_unattached _ _ _ _ _ _ _ Hnew Hnone Hlt), Hp.
  unfold initialized. rewrite Hinit. eexists. split; [done|].
  assert (Hat : getattr_jpype_interfaces
                  (log_init {| ic_self := fresh_instance w tp ifs;
                               ic_args := args; ic_kwargs := kwargs |}
                     (set_types (alter (attach ifs) tp) (count_resolution w)))
                  tp = Some (Attached ifs)).
  { by apply (getattr_jpype_interfaces_attach ifs tp (count_resolution w)). }
  split; [done|]. split; [done|]. split; [done|].
  rewrite (type_call_attached _ tp args' kwargs' _ cls intf ifs);
    [| |exact Hat].
  - by destruct (initialized_frame cls (fresh_instance
        (log_init {| ic_self := fresh_instance w tp ifs;
                     ic_args := args; ic_kwargs := kwargs |}
           (set_types (alter (attach ifs) tp) (count_resolution w))) tp ifs)
        args' kwargs'
        (log_init {| ic_self := fresh_instance w tp ifs;
                     ic_args := args; ic_kwargs := kwargs |}
           (set_types (alter (attach ifs) tp) (count_resolution w))))
      as (_ & -> & _).
  - change (getattr_new (set_types (alter (attach ifs) tp) (count_resolution w))
              tp = Some (cls, intf)).
    rewrite getattr_new_attach. exact Hnew.
Qed.

(** A type declared in eager mode never resolves again: every
    instantiation made right after the declaration allocates with the set
    attached by the declaration and leaves the count of resolutions at the
    one run of the declaration. *)
Theorem eager_type_never_resolves (cls : hostclass) (intf : list pyobj)
    (kwargs : list (string * pyobj)) (w w1 : world) (t : nat)
    (args : list pyobj) (kw : list (string * pyobj)) :
  kwargs = [] ∨ kwargs = mode false →
  _createJProxy JClass_lookup cls intf kwargs w = (Ok t, w1) →
  ∃ ifs,
    prepared JClass_lookup cls intf = Ok ifs ∧
    type_call JClass_lookup t args kw w1
    = initialized cls (fresh_instance w1 t ifs) args kw w1 ∧
    w_resolutions (type_call JClass_lookup t args kw w1).2
    = S (w_resolutions w) ∧
    w_types (type_call JClass_lookup t args kw w1).2 = w_types w1.
Proof.
  intros Hk Hc. rewrite (createJProxy_eager _ _ _ _ _ Hk) in Hc.
  destruct (prepared JClass_lookup cls intf) as [ifs|e]; [|done].
  injection Hc as <- <-. exists ifs. split; [done|].
  rewrite (type_call_attached _ _ _ _ _ cls intf ifs).
  - split; [done|].
    destruct (initialized_frame cls
      (fresh_instance (set_types (λ types, types ++ [proxy_type cls intf (Some ifs)])
                         (count_resolution w)) (length (w_types w)) ifs)
      args kw (set_types (λ types, types ++ [proxy_type cls intf (Some ifs)])
                 (count_resolution w))) as (-> & -> & _). done.
  - apply (getattr_new_new_type (count_resolution w)).
  - apply (getattr_interfaces_new_type (count_resolution w)).
Qed.

End instantiation_properties.


Section inherited_interfaces.
Variable JClass_lookup : string → result JClass.
Context {order : SetOrder}.


End inherited_interfaces.

(** ** The further properties on the example data *)

Lemma JImplements_invalid_keywords_witness :
  JImplements example_lookup (order := insertion_order)
    [PStr "java.lang.Runnable"]
    [("x", PNone); ("deferred", PBool true); ("y", PNone)] MyImpl world0
  = (Raise (TypeError "Invalid keywords: x,y"), world0).
Proof.
  destruct (JImplements_invalid_keywords example_lookup
              (order := insertion_order) [PStr "java.lang.Runnable"]
              [("x", PNone); ("deferred", PBool true); ("y", PNone)] MyImpl
              world0 "x" (list_elem_of_here _ _))
    as (msg & H1 & H2); [discriminate|].
  destruct H2 as (keys & Hkeys & _ & _ & _ & Hmsg).
  { apply (bool_decide_unpack _). vm_compute. exact I. }
  rewrite H1, Hmsg, Hkeys. reflexivity.
Defined.

(** A keyword named [cls] is refused by the call itself. *)
Example JImplements_cls_keyword :
  ∃ msg,
    JImplements example_lookup (order := insertion_order)
      [PStr "java.lang.Runnable"] [("cls", PNone)] MyImpl world0
    = (Raise (TypeError msg), world0) ∧
    msg ≠ "Invalid keywords: cls".
Proof. eexists. split; [reflexivity|discriminate]. Qed.

(** A wrapped interface that has [__iter__] resolves inside a list and is
    refused as an item of its own. *)
Example convertInterfaces_iterable_class :
  _convertInterfaces example_lookup (order := insertion_order)
    [PList [PJClass Iterable]] = Ok [Iterable] ∧
  ∃ msg,
    _convertInterfaces example_lookup (order := insertion_order)
      [PJClass Iterable] = Raise (TypeError msg).
Proof. split; [reflexivity|]. eexists. reflexivity. Qed.

Lemma convertInterfaces_regrouping_witness :
  _convertInterfaces example_lookup (order := insertion_order)
    [PStr "java.lang.Runnable"; PJClass Runnable] = Ok [Runnable] ∧
  ∃ resolved2,
    _convertInterfaces example_lookup (order := insertion_order)
      [PList [PJClass Runnable; PStr "java.lang.Runnable"; PJClass Runnable]]
    = Ok resolved2 ∧
    [Runnable] ≡ₚ resolved2.
Proof.
  split; [reflexivity|].
  apply (convertInterfaces_regrouping example_lookup (order := insertion_order)
           [PStr "java.lang.Runnable"; PJClass Runnable]
           [PList [PJClass Runnable; PStr "java.lang.Runnable"; PJClass Runnable]]);
    [|clear|reflexivity].
  { constructor; [intros c; discriminate|constructor]. }
  intros item. simpl. rewrite !elem_of_cons. tauto.
Defined.

Lemma convertInterfaces_lookup_failure_witness :
  example_lookup "no.such.Class"
  = Raise (JavaError "Class no.such.Class not found") ∧
  _convertInterfaces example_lookup (order := insertion_order)
    [PStr "java.lang.Thread"; PStr "no.such.Class"]
  = Raise (JavaError "Class no.such.Class not found").
Proof.
  split; [reflexivity|].
  apply (convertInterfaces_lookup_failure example_lookup
           (order := insertion_order)
           [PStr "java.lang.Thread"; PStr "no.such.Class"]
           [PStr "java.lang.Thread"] [] [PJClass Thread] "no.such.Class");
    reflexivity.
Defined.

Lemma checkInterfaceOverrides_monotone_witness :
  _checkInterfaceOverrides [Runnable]
    ({[ "run" := PNone ]} : gmap string pyobj) = Ok tt ∧
  _checkInterfaceOverrides [Runnable]
    ({[ "run" := true; "close" := false ]} : gmap string bool) = Ok tt.
Proof.
  split; [reflexivity|].
  apply (checkInterfaceOverrides_monotone [Runnable] [Runnable]
           ({[ "run" := PNone ]} : gmap string pyobj)
           ({[ "run" := true; "close" := false ]} : gmap string bool));
    [reflexivity| |reflexivity].
  apply (bool_decide_unpack _). vm_compute. exact I.
Defined.

Lemma JProxy_mapping_dispatch_witness :
  ∃ delegate,
    JProxy___new__ example_lookup (order := insertion_order) Ty_JProxy
      (PStr "java.lang.Runnable") (PDict [("run", PFunction "f" None)])
      PNone false
    = Ok (PProxy Ty_JProxyBase delegate [Runnable] false) ∧
    _JFromDict___getattribute__ delegate "run" = Ok (PFunction "f" None).
Proof.
  apply (JProxy_mapping_dispatch example_lookup (order := insertion_order)
           Ty_JProxy (PStr "java.lang.Runnable")
           [("run", PFunction "f" None)] false [Runnable] "run").
  reflexivity.
Defined.

Lemma unwrap_JProxy_witness :
  JProxy___new__ example_lookup (order := insertion_order) Ty_JProxy
    (PStr "java.lang.Runnable") PNone (PObject "Impl" 1) false
  = Ok inner_proxy ∧
  unwrap inner_proxy = Ok (PObject "Impl" 1).
Proof.
  split; [reflexivity|].
  destruct (unwrap_JProxy example_lookup (order := insertion_order) Ty_JProxy
              (PStr "java.lang.Runnable") PNone (PObject "Impl" 1) false
              inner_proxy eq_refl) as [H _].
  exact (H eq_refl).
Defined.

Lemma world_good_preserved_witness :
  world_good shared_world ∧
  world_good (_createJProxy example_lookup (order := insertion_order) Incomplete
                [PStr "java.lang.Runnable"] (mode true) shared_world).2 ∧
  world_good (type_call example_lookup (order := insertion_order) 1 [] []
                shared_world).2 ∧
  ∃ self ifs,
    (type_call example_lookup (order := insertion_order) 1 [] []
       shared_world).1 = Ok self ∧
    proxy_interfaces self = Some ifs ∧ good_interfaces ifs.
Proof.
  assert (Hgood : good_interfaces [Runnable]).
  { split; [discriminate|]. split; [apply NoDup_singleton|].
    constructor; [reflexivity|constructor]. }
  assert (Htypes : w_types shared_world
                   = [attach [Runnable]
                        (proxy_type MyImpl [PStr "java.lang.Runnable"] None);
                      {| ty_name := "Sub"; ty_mro := [0%nat]; ty_new := None;
                         ty_jpype_interfaces := None |}])
    by (vm_compute; reflexivity).
  assert (H0 : world_good shared_world).
  { unfold world_good. rewrite Htypes. constructor; [|constructor; [|constructor]].
    - intros ifs [= <-]. exact Hgood.
    - intros ifs [=]. }
  assert (Hget : getattr_jpype_interfaces shared_world 1
                 = Some (Attached [Runnable])) by (vm_compute; reflexivity).
  assert (Hcall : (type_call example_lookup (order := insertion_order) 1 [] []
                     shared_world).1
                  = Ok (PProxy (Ty_dyn 1 "Sub") PNone [Runnable] false))
    by (vm_compute; reflexivity).
  destruct (world_good_preserved example_lookup (order := insertion_order)
              shared_world H0) as (Hc & Ht & _).
  split; [exact H0|]. split; [|split].
  - exact (Hc Incomplete [PStr "java.lang.Runnable"] (mode true)).
  - exact (proj1 (Ht 1%nat [] [])).
  - destruct (proj2 (Ht 1%nat [] []))
      with (self := PProxy (Ty_dyn 1 "Sub") PNone [Runnable] false)
      as (ifs & H1 & H2).
    + intros v. rewrite Hget. discriminate.
    + exact Hcall.
    + exists (PProxy (Ty_dyn 1 "Sub") PNone [Runnable] false), ifs.
      split; [exact Hcall|]. split; [exact H1|exact H2].
Defined.

Lemma init_failure_keeps_interfaces_witness :
  ∃ w',
    type_call example_lookup (order := insertion_order) 0 [PStr "a"] []
      failing_world = (Raise (TypeError "bad argument"), w') ∧
    getattr_jpype_interfaces w' 0 = Some (Attached [Runnable]) ∧
    w_resolutions (type_call example_lookup (order := insertion_order) 0
                     [PStr "b"] [] w').2 = 1%nat.
Proof.
  destruct (init_failure_keeps_interfaces example_lookup
              (order := insertion_order) Failing [PStr "java.lang.Runnable"]
              0 [PStr "a"] [PStr "b"] [] [] failing_world [Runnable]
              (TypeError "bad argument") eq_refl eq_refl eq_refl eq_refl)
    as (w' & H1 & H2 & _ & _ & H3).
  exists w'. split; [exact H1|]. split; [exact H2|exact H3].
Defined.

Lemma eager_type_never_resolves_witness :
  ∃ ifs,
    prepared example_lookup (order := insertion_order) MyImpl
      [PStr "java.lang.Runnable"] = Ok ifs ∧
    w_resolutions
      (type_call example_lookup (order := insertion_order) 0 [] []
         (_createJProxy example_lookup (order := insertion_order) MyImpl
            [PStr "java.lang.Runnable"] [] world0).2).2 = 1%nat.
Proof.
  destruct (eager_type_never_resolves example_lookup
              (order := insertion_order) MyImpl [PStr "java.lang.Runnable"] []
              world0
              (_createJProxy example_lookup (order := insertion_order) MyImpl
                 [PStr "java.lang.Runnable"] [] world0).2
              0 [] [] (or_introl eq_refl) eq_refl)
    as (ifs & H1 & _ & H2 & _).
  exists ifs. split; [exact H1|exact H2].
Defined.

